(** * Photo Client Messenger: usage ledger, plan limits, link tokens and
    account data, embedded from server/db.ts, server/limits.ts,
    server/index.ts and the Telegram bridge. *)

From Stdlib Require Import ZArith String Ascii Bool List Lia.
From stdpp Require Import base gmap strings list list_relations.

Open Scope Z_scope.

(** ** JavaScript dates (host time zone)

    A JS [Date] value is milliseconds since the epoch.  The host's time
    zone is ECMAScript's LocalTZA(t, isUtc): the offset from UTC, in
    milliseconds, in force at [t], where [t] is a UTC instant when
    [isUtc] is true and a local wall-clock time when it is false.  Local
    getters ([getFullYear], [getMonth]) read the calendar at
    LocalTime(t) = [t + tz t true]; the local constructor
    [new Date(y, m, d)] builds the local time [L] of that midnight and
    returns UTC(L) = [L - tz L false], with the offset in force at [L]. *)

Definition zone := Z -> bool -> Z.

(** A zone without daylight saving time: one offset at every instant. *)
Definition fixed_offset (o : Z) : zone := fun _ _ => o.

Definition utc : zone := fixed_offset 0.

(** Europe/London during 2026: GMT (offset 0), and BST (offset +1h) from
    2026-03-29T01:00Z to 2026-10-25T01:00Z, that is for local times from
    2026-03-29T02:00 to 2026-10-25T02:00 (the repeated hour read as BST). *)
Definition london_2026 : zone := fun t isUtc =>
  if isUtc then
    (if (1774746000000 <=? t) && (t <? 1792890000000) then 3600000 else 0)
  else
    (if (1774749600000 <=? t) && (t <? 1792893600000) then 3600000 else 0).

Definition msPerDay : Z := 86400000.

(** Proleptic Gregorian calendar: day number (days since 1970-01-01) to
    (year, month 1..12, day 1..31). *)
Definition civil_from_days (days : Z) : Z * Z * Z :=
  let z := days + 719468 in
  let era := z / 146097 in
  let doe := z - era * 146097 in
  let yoe := (doe - doe / 1460 + doe / 36524 - doe / 146096) / 365 in
  let y := yoe + era * 400 in
  let doy := doe - (365 * yoe + yoe / 4 - yoe / 100) in
  let mp := (5 * doy + 2) / 153 in
  let d := doy - (153 * mp + 2) / 5 + 1 in
  let m := if mp <? 10 then mp + 3 else mp - 9 in
  (if m <=? 2 then y + 1 else y, m, d).

(** (year, month 1..12, day) to day number. *)
Definition days_from_civil (y m d : Z) : Z :=
  let y := if m <=? 2 then y - 1 else y in
  let era := y / 400 in
  let yoe := y - era * 400 in
  let doy := (153 * (if m >? 2 then m - 3 else m + 9) + 2) / 5 + d - 1 in
  let doe := yoe * 365 + yoe / 4 - yoe / 100 + doy in
  era * 146097 + doe - 719468.

(** ECMAScript MakeDay(year, month0, date) with a 0-based month that may
    overflow into the next year. *)
Definition MakeDay (year month0 date : Z) : Z :=
  days_from_civil (year + month0 / 12) (month0 mod 12 + 1) date.

(** Calendar fields of an instant in the host's local time. *)
Definition calendar_at (tz : zone) (t : Z) : Z * Z * Z :=
  civil_from_days ((t + tz t true) / msPerDay).

(** [String(n)] for an integer. *)
Fixpoint digits_aux (fuel : nat) (n : Z) (acc : string) : string :=
  match fuel with
  | O => acc
  | S f =>
      let acc' := String (ascii_of_nat (48 + Z.to_nat (n mod 10))) acc in
      if n <? 10 then acc' else digits_aux f (n / 10) acc'
  end.

Definition z_to_string (n : Z) : string :=
  if n <? 0 then ("-" ++ digits_aux 64 (- n) "")%string
  else digits_aux 64 n "".

(** [String(m).padStart(2, '0')]. *)
Definition pad2 (s : string) : string :=
  match String.length s with
  | 0%nat => "00"
  | 1%nat => ("0" ++ s)%string
  | _ => s
  end.

Definition month_key (y m : Z) : string :=
  (z_to_string y ++ "-" ++ pad2 (z_to_string m))%string.

(** db.ts [getCurrentMonth]: [`${getFullYear()}-${pad(getMonth()+1)}`],
    local time. *)
Definition getCurrentMonth (tz : zone) (now : Z) : string :=
  let '(y, m, _) := calendar_at tz now in month_key y m.

(** db.ts [getNextMonthStart]:
    [new Date(getFullYear(), getMonth() + 1, 1).toISOString()]; the result
    is the instant (the ISO rendering is the UTC form of it). *)
Definition getNextMonthStart (tz : zone) (now : Z) : Z :=
  let '(y, m, _) := calendar_at tz now in
  let L := MakeDay y ((m - 1) + 1) 1 * msPerDay in
  L - tz L false.

(** The spec's notions: the UTC year-month of an instant and the first
    instant of the next UTC calendar month. *)
Definition utc_month_key (t : Z) : string :=
  let '(y, m, _) := civil_from_days (t / msPerDay) in month_key y m.

Definition utc_next_month_start (t : Z) : Z :=
  let '(y, m, _) := civil_from_days (t / msPerDay) in
  (if m =? 12 then days_from_civil (y + 1) 1 1 else days_from_civil y (m + 1) 1)
  * msPerDay.

(** ** Plans and limits (limits.ts [PLAN_LIMITS]) *)

Inductive plan := free | paid | power.

Inductive ceiling := Fin (n : Z) | Infinity.

Record plan_limits := {
  lim_clients : ceiling;
  lim_messagesPerClient : ceiling;
  lim_aiRespond : ceiling;
  lim_aiImprove : ceiling;
  lim_transcribe : ceiling;
}.

Definition PLAN_LIMITS (p : plan) : plan_limits :=
  match p with
  | free => {| lim_clients := Fin 5; lim_messagesPerClient := Fin 50;
               lim_aiRespond := Fin 20; lim_aiImprove := Fin 30;
               lim_transcribe := Fin 10 |}
  | paid => {| lim_clients := Fin 25; lim_messagesPerClient := Fin 250;
               lim_aiRespond := Fin 200; lim_aiImprove := Fin 300;
               lim_transcribe := Fin 100 |}
  | power => {| lim_clients := Infinity; lim_messagesPerClient := Infinity;
                lim_aiRespond := Infinity; lim_aiImprove := Infinity;
                lim_transcribe := Infinity |}
  end.

Definition plan_name (p : plan) : string :=
  match p with free => "free" | paid => "paid" | power => "power" end.

Inductive ai_type := aiRespond | aiImprove | transcribe.

Definition ai_limit (l : plan_limits) (ty : ai_type) : ceiling :=
  match ty with
  | aiRespond => lim_aiRespond l
  | aiImprove => lim_aiImprove l
  | transcribe => lim_transcribe l
  end.

(** ** Database (db.ts schema)

    One record per table row.  Row ids come from one counter [next_id];
    the usage table is keyed by its UNIQUE(user_id, month) pair. *)

Record user_row := {
  u_id : Z;
  u_email : string;
  u_name : string;
  u_plan : plan;
  u_telegram_chat_id : option Z;
  u_telegram_username : option string;
}.

Record saved_response_row := {
  s_id : Z;
  s_user_id : Z;
  s_title : string;
  s_text : string;
}.

Record client_row := {
  c_id : Z;
  c_user_id : Z;
  c_name : string;
  c_notes : string;
}.

Inductive sender := sender_client | sender_me.

Record message_row := {
  m_id : Z;
  m_client_id : Z;
  m_sender : sender;
  m_text : string;
}.

Record usage_row := {
  ai_respond_count : Z;
  ai_improve_count : Z;
  transcribe_count : Z;
}.

(** Both token tables have the same shape (password_reset_tokens in
    db.ts, telegram_link_tokens in the Telegram multi-user plan). *)
Record token_row := {
  t_id : Z;
  t_user_id : Z;
  t_token : string;
  t_expires_at : Z;
  t_used : Z;
}.

Record db := {
  users : list user_row;
  saved_responses : list saved_response_row;
  clients : list client_row;
  messages : list message_row;
  usage : gmap (Z * string) usage_row;
  password_reset_tokens : list token_row;
  telegram_link_tokens : list token_row;
  next_id : Z;
}.

Definition set_usage (u : gmap (Z * string) usage_row) (d : db) : db :=
  {| users := users d; saved_responses := saved_responses d;
     clients := clients d; messages := messages d; usage := u;
     password_reset_tokens := password_reset_tokens d;
     telegram_link_tokens := telegram_link_tokens d; next_id := next_id d |}.

Definition set_clients (cs : list client_row) (nid : Z) (d : db) : db :=
  {| users := users d; saved_responses := saved_responses d;
     clients := cs; messages := messages d; usage := usage d;
     password_reset_tokens := password_reset_tokens d;
     telegram_link_tokens := telegram_link_tokens d; next_id := nid |}.

Definition set_users (us : list user_row) (d : db) : db :=
  {| users := us; saved_responses := saved_responses d;
     clients := clients d; messages := messages d; usage := usage d;
     password_reset_tokens := password_reset_tokens d;
     telegram_link_tokens := telegram_link_tokens d; next_id := next_id d |}.

Definition set_link_tokens (ts : list token_row) (nid : Z) (d : db) : db :=
  {| users := users d; saved_responses := saved_responses d;
     clients := clients d; messages := messages d; usage := usage d;
     password_reset_tokens := password_reset_tokens d;
     telegram_link_tokens := ts; next_id := nid |}.

Definition set_reset_tokens (ts : list token_row) (nid : Z) (d : db) : db :=
  {| users := users d; saved_responses := saved_responses d;
     clients := clients d; messages := messages d; usage := usage d;
     password_reset_tokens := ts;
     telegram_link_tokens := telegram_link_tokens d; next_id := nid |}.

(** ** Usage queries (db.ts [usage]) *)

Definition zero_usage : usage_row :=
  {| ai_respond_count := 0; ai_improve_count := 0; transcribe_count := 0 |}.

(** [INSERT ... VALUES (?, ?, 0, 0, 0) ON CONFLICT(user_id, month) DO NOTHING] *)
Definition upsertUsage (uid : Z) (month : string) (d : db) : db :=
  match usage d !! (uid, month) with
  | Some _ => d
  | None => set_usage (<[(uid, month) := zero_usage]> (usage d)) d
  end.

Definition count_of (ty : ai_type) (r : usage_row) : Z :=
  match ty with
  | aiRespond => ai_respond_count r
  | aiImprove => ai_improve_count r
  | transcribe => transcribe_count r
  end.

Definition bump (ty : ai_type) (r : usage_row) : usage_row :=
  match ty with
  | aiRespond => {| ai_respond_count := ai_respond_count r + 1;
                    ai_improve_count := ai_improve_count r;
                    transcribe_count := transcribe_count r |}
  | aiImprove => {| ai_respond_count := ai_respond_count r;
                    ai_improve_count := ai_improve_count r + 1;
                    transcribe_count := transcribe_count r |}
  | transcribe => {| ai_respond_count := ai_respond_count r;
                     ai_improve_count := ai_improve_count r;
                     transcribe_count := transcribe_count r + 1 |}
  end.

(** [UPDATE usage SET <col> = <col> + 1 WHERE user_id = ? AND month = ?] *)
Definition incrementStmt (ty : ai_type) (uid : Z) (month : string) (d : db) : db :=
  match usage d !! (uid, month) with
  | Some r => set_usage (<[(uid, month) := bump ty r]> (usage d)) d
  | None => d
  end.

(** [usage.get]: month computed at call time, upsert, then select. *)
Definition usage_get (tz : zone) (now uid : Z) (d : db) : usage_row * db :=
  let month := getCurrentMonth tz now in
  let d' := upsertUsage uid month d in
  (default zero_usage (usage d' !! (uid, month)), d').

(** [usage.incrementAiRespond] / [incrementAiImprove] / [incrementTranscribe]. *)
Definition usage_increment (ty : ai_type) (tz : zone) (now uid : Z) (d : db) : db :=
  let month := getCurrentMonth tz now in
  incrementStmt ty uid month (upsertUsage uid month d).

Definition countByUser (uid : Z) (d : db) : Z :=
  Z.of_nat (length (filter (fun c => bool_decide (c_user_id c = uid)) (clients d))).

(** ** Middleware results (limits.ts) *)

Inductive limit_type := LClients | LMessagesPerClient | LAi (ty : ai_type).

Record LimitError := {
  le_error : string;
  le_limitType : limit_type;
  le_current : Z;
  le_limit : Z;
  le_resetDate : Z;
  le_message : string;
}.

Inductive body :=
  | BLimit (e : LimitError)
  | BError (msg : string)
  | BSuccess.

(** An Express middleware either calls [next()] or answers. *)
Inductive mw_result :=
  | Next
  | Respond (status : Z) (b : body).

Definition limitError (tz : zone) (now : Z) (lt : limit_type) (current limit : Z)
    (message : string) : LimitError :=
  {| le_error := "limit_exceeded"; le_limitType := lt; le_current := current;
     le_limit := limit; le_resetDate := getNextMonthStart tz now;
     le_message := message |}.

Definition typeLabel (ty : ai_type) : string :=
  match ty with
  | aiRespond => "AI response"
  | aiImprove => "AI improve"
  | transcribe => "transcription"
  end.

(** [checkAILimit(type)]. *)
Definition checkAILimit (ty : ai_type) (tz : zone) (now : Z) (user : user_row) (d : db)
    : mw_result * db :=
  match ai_limit (PLAN_LIMITS (u_plan user)) ty with
  | Infinity => (Next, d)
  | Fin limit =>
      let '(currentUsage, d') := usage_get tz now (u_id user) d in
      let current := count_of ty currentUsage in
      if limit <=? current then
        (Respond 429 (BLimit (limitError tz now (LAi ty) current limit
           ("You've used all " ++ z_to_string limit ++ " " ++ typeLabel ty
            ++ " credits this month")%string)), d')
      else (Next, d')
  end.

(** [checkClientLimit]. *)
Definition checkClientLimit (tz : zone) (now : Z) (user : user_row) (d : db) : mw_result :=
  match lim_clients (PLAN_LIMITS (u_plan user)) with
  | Infinity => Next
  | Fin limit =>
      let currentCount := countByUser (u_id user) d in
      if limit <=? currentCount then
        Respond 429 (BLimit (limitError tz now LClients currentCount limit
          ("You've reached the limit of " ++ z_to_string limit
           ++ " clients on your " ++ plan_name (u_plan user) ++ " plan")%string))
      else Next
  end.

(** The consumed count of the current month's usage record, as
    [usage.get] reads it. *)
Definition current_usage (ty : ai_type) (tz : zone) (now uid : Z) (d : db) : Z :=
  count_of ty (fst (usage_get tz now uid d)).

(** [checkMessageLimit]: [Fin] ceilings only; the client must belong to
    the user. *)
Definition countByClient (cid : Z) (d : db) : Z :=
  Z.of_nat (length (filter (fun m => bool_decide (m_client_id m = cid)) (messages d))).

Definition findByIdAndUser (cid uid : Z) (d : db) : option client_row :=
  find (fun c => bool_decide (c_id c = cid) && bool_decide (c_user_id c = uid))
    (clients d).

Definition checkMessageLimit (tz : zone) (now : Z) (user : user_row) (clientId : Z) (d : db)
    : mw_result :=
  match lim_messagesPerClient (PLAN_LIMITS (u_plan user)) with
  | Infinity => Next
  | Fin limit =>
      match findByIdAndUser clientId (u_id user) d with
      | None => Respond 404 (BError "Client not found")
      | Some _ =>
          let currentCount := countByClient clientId d in
          if limit <=? currentCount then
            Respond 429 (BLimit (limitError tz now LMessagesPerClient currentCount
              limit ("This client has reached the limit of " ++ z_to_string limit
              ++ " messages on your " ++ plan_name (u_plan user) ++ " plan")%string))
          else Next
      end
  end.

(** ** Metered AI routes (index.ts [POST /api/ai/respond], [/improve],
    [/transcribe]) as interleavable request processes.

    Node runs each handler until its [await] on the provider; the
    handler is resumed later, possibly after other requests ran.  A
    request is [RStart] (before [checkAILimit]), [RAwait] (passed the
    check, waiting for the provider), then [RDone] (provider succeeded,
    usage incremented) or [RFailed] (provider error: 500, no increment);
    [RDenied] is the 429 answer of the check. *)

Inductive req_pc := RStart | RAwait | RDone | RFailed | RDenied.

Definition req_step (ty : ai_type) (tz : zone) (user : user_row) (now : Z)
    (provider_ok : bool) (pc : req_pc) (d : db) : req_pc * db :=
  match pc with
  | RStart =>
      let '(r, d') := checkAILimit ty tz now user d in
      match r with
      | Next => (RAwait, d')
      | Respond _ _ => (RDenied, d')
      end
  | RAwait =>
      if provider_ok then (RDone, usage_increment ty tz now (u_id user) d)
      else (RFailed, d)
  | pc => (pc, d)
  end.

(** A scheduler event: resume request [ev_req] at time [ev_time]; the
    provider call it was waiting for succeeded iff [ev_ok]. *)
Record event := { ev_req : nat; ev_time : Z; ev_ok : bool }.

Fixpoint run_reqs (ty : ai_type) (tz : zone) (user : user_row) (evs : list event)
    (pcs : list req_pc) (d : db) : list req_pc * db :=
  match evs with
  | [] => (pcs, d)
  | e :: evs' =>
      match pcs !! ev_req e with
      | Some pc =>
          let '(pc', d') := req_step ty tz user (ev_time e) (ev_ok e) pc d in
          run_reqs ty tz user evs' (<[ev_req e := pc']> pcs) d'
      | None => run_reqs ty tz user evs' pcs d
      end
  end.

(** Requests of several accounts and AI endpoints in flight at once:
    request [i] is an [mr_ty]-request of [mr_user], at [mr_pc]; each
    event resumes one of them. *)
Record mreq := { mr_ty : ai_type; mr_user : user_row; mr_pc : req_pc }.

Fixpoint run_mixed (tz : zone) (evs : list event) (rs : list mreq) (d : db)
    : list mreq * db :=
  match evs with
  | [] => (rs, d)
  | e :: evs' =>
      match rs !! ev_req e with
      | Some r =>
          let '(pc', d') := req_step (mr_ty r) tz (mr_user r) (ev_time e) (ev_ok e)
                              (mr_pc r) d in
          run_mixed tz evs'
            (<[ev_req e := {| mr_ty := mr_ty r; mr_user := mr_user r; mr_pc := pc' |}]> rs) d'
      | None => run_mixed tz evs' rs d
      end
  end.

Definition is_done (pc : req_pc) : bool :=
  match pc with RDone => true | _ => false end.

Fixpoint count_done (pcs : list req_pc) : nat :=
  match pcs with
  | [] => 0
  | pc :: pcs' => (if is_done pc then 1 else 0) + count_done pcs'
  end.

Definition b2z (b : bool) : Z := if b then 1 else 0.

(** The counter of one usage row (0 when the row does not exist yet). *)
Definition row_count (ty : ai_type) (uid : Z) (month : string) (d : db) : Z :=
  match usage d !! (uid, month) with
  | Some r => count_of ty r
  | None => 0
  end.

(** ** Telegram link tokens (telegramLinkTokens in the multi-user plan,
    the [/start] handler of the bot and [POST /api/telegram/connect]) *)

(** [SELECT * FROM telegram_link_tokens WHERE token = ? AND used = 0], then
    [new Date(expires_at) < new Date()] makes it [undefined]. *)
Definition findByToken (tbl : list token_row) (tok : string) (now : Z)
    : option token_row :=
  match find (fun r => String.eqb (t_token r) tok && (t_used r =? 0)) tbl with
  | Some r => if t_expires_at r <? now then None else Some r
  | None => None
  end.

(** [UPDATE telegram_link_tokens SET used = 1 WHERE token = ?] *)
Definition markUsed (tbl : list token_row) (tok : string) : list token_row :=
  map (fun r => if String.eqb (t_token r) tok
                then {| t_id := t_id r; t_user_id := t_user_id r;
                        t_token := t_token r; t_expires_at := t_expires_at r;
                        t_used := 1 |}
                else r) tbl.

(** [expires_at < datetime('now')] compares the ISO text
    ["YYYY-MM-DDTHH:MM:SS.sssZ"] with SQLite's ["YYYY-MM-DD HH:MM:SS"];
    the dates decide, and on the same date ['T'] sorts after [' ']. *)
Definition sqlite_expired (expires now : Z) : bool :=
  expires / msPerDay <? now / msPerDay.

(** [DELETE FROM telegram_link_tokens WHERE expires_at < datetime('now') OR used = 1] *)
Definition deleteExpiredTokens (tbl : list token_row) (now : Z) : list token_row :=
  filter (fun r => negb (sqlite_expired (t_expires_at r) now || (t_used r =? 1))) tbl.

(** [UPDATE users SET telegram_chat_id = ?, telegram_username = ? WHERE id = ?];
    the partial UNIQUE index on telegram_chat_id makes it fail when another
    user already holds that chat id. *)
Definition setTelegramChat (uid chatId : Z) (username : string) (us : list user_row)
    : option (list user_row) :=
  if existsb (fun u => negb (u_id u =? uid) &&
                       bool_decide (u_telegram_chat_id u = Some chatId)) us
  then None
  else Some (map (fun u => if u_id u =? uid
                           then {| u_id := u_id u; u_email := u_email u;
                                   u_name := u_name u; u_plan := u_plan u;
                                   u_telegram_chat_id := Some chatId;
                                   u_telegram_username := Some username |}
                           else u) us).

Definition findByTelegramChatId (chatId : Z) (d : db) : option user_row :=
  find (fun u => bool_decide (u_telegram_chat_id u = Some chatId)) (users d).

Inductive start_reply :=
  | ReplyAlreadyConnected (uid : Z)
  | ReplyWelcome
  | ReplyInvalid
  | ReplyConnected (uid : Z)
  | ReplyFault.

(** The [/start <token>] handler; [tokenArg] is [match?.[1]?.trim()].
    The handler has no [await]: it runs to completion before any other
    message is handled.  The transaction is all-or-nothing. *)
Definition start_handler (chatId : Z) (username : string) (tokenArg : option string)
    (now : Z) (d : db) : start_reply * db :=
  match tokenArg with
  | None | Some EmptyString =>
      match findByTelegramChatId chatId d with
      | Some u => (ReplyAlreadyConnected (u_id u), d)
      | None => (ReplyWelcome, d)
      end
  | Some tok =>
      match findByToken (telegram_link_tokens d) tok now with
      | None => (ReplyInvalid, d)
      | Some lt =>
          let d1 := set_link_tokens (markUsed (telegram_link_tokens d) tok)
                      (next_id d) d in
          match setTelegramChat (t_user_id lt) chatId username (users d1) with
          | Some us => (ReplyConnected (t_user_id lt), set_users us d1)
          | None => (ReplyFault, d)
          end
      end
  end.

Definition LINK_TOKEN_TTL : Z := 15 * 60 * 1000.

(** [POST /api/telegram/connect] with the random token [tok]:
    [telegramLinkTokens.create(user.id, tok, now + 15 min)]; the insert
    fails (500) if [tok] is still in the table (token UNIQUE). *)
Definition telegram_connect (uid : Z) (tok : string) (now : Z) (d : db) : option db :=
  let tbl := deleteExpiredTokens (telegram_link_tokens d) now in
  if existsb (fun r => String.eqb (t_token r) tok) tbl then None
  else Some (set_link_tokens
               (tbl ++ [{| t_id := next_id d; t_user_id := uid; t_token := tok;
                           t_expires_at := now + LINK_TOKEN_TTL; t_used := 0 |}])
               (next_id d + 1) d).

(** [DELETE /api/telegram/disconnect]: [users.clearTelegramChat]. *)
Definition clearTelegramChat (uid : Z) (d : db) : db :=
  set_users (map (fun u => if u_id u =? uid
                           then {| u_id := u_id u; u_email := u_email u;
                                   u_name := u_name u; u_plan := u_plan u;
                                   u_telegram_chat_id := None;
                                   u_telegram_username := None |}
                           else u) (users d)) d.

Inductive link_op :=
  | OpStart (chatId : Z) (username : string) (tokenArg : option string) (now : Z)
  | OpConnect (uid : Z) (tok : string) (now : Z)
  | OpDisconnect (uid : Z).

Definition link_step (d : db) (op : link_op) : db :=
  match op with
  | OpStart c u t now => snd (start_handler c u t now d)
  | OpConnect uid tok now =>
      (* the clean-up has committed before the insert fails *)
      match telegram_connect uid tok now d with
      | Some d' => d'
      | None => set_link_tokens (deleteExpiredTokens (telegram_link_tokens d) now)
                  (next_id d) d
      end
  | OpDisconnect uid => clearTelegramChat uid d
  end.

Definition run_link_ops (d : db) (ops : list link_op) : db := foldl link_step d ops.

Definition issues_token (tok : string) (op : link_op) : bool :=
  match op with OpConnect _ t _ => String.eqb t tok | _ => false end.

(** ** Deleting a user row (schema: every child table references its
    parent with ON DELETE CASCADE, and [foreign_keys = ON]).

    SQLite deletes the user, every row whose [user_id] is the user, and,
    one level further, every message whose [client_id] is one of the
    deleted clients. *)
Definition delete_user (uid : Z) (d : db) : db :=
  let owned := map c_id (filter (fun c => bool_decide (c_user_id c = uid)) (clients d)) in
  {| users := filter (fun u => bool_decide (u_id u <> uid)) (users d);
     saved_responses := filter (fun s => bool_decide (s_user_id s <> uid)) (saved_responses d);
     clients := filter (fun c => bool_decide (c_user_id c <> uid)) (clients d);
     messages := filter (fun m => bool_decide (m_client_id m ∉ owned)) (messages d);
     usage := filter (fun kv => kv.1.1 <> uid) (usage d);
     password_reset_tokens := filter (fun r => bool_decide (t_user_id r <> uid))
                                (password_reset_tokens d);
     telegram_link_tokens := filter (fun r => bool_decide (t_user_id r <> uid))
                               (telegram_link_tokens d);
     next_id := next_id d |}.

(** ** Strings: [toLowerCase] and [trim] on ASCII text *)

Definition lower_ascii (c : ascii) : ascii :=
  let n := nat_of_ascii c in
  if (65 <=? n)%nat && (n <=? 90)%nat then ascii_of_nat (n + 32) else c.

Definition is_ws (c : ascii) : bool :=
  let n := nat_of_ascii c in
  ((9 <=? n)%nat && (n <=? 13)%nat) || (n =? 32)%nat.

Fixpoint drop_ws (l : list ascii) : list ascii :=
  match l with
  | [] => []
  | c :: l' => if is_ws c then drop_ws l' else l
  end.

Definition toLowerCase (s : string) : string :=
  string_of_list_ascii (map lower_ascii (list_ascii_of_string s)).

Definition trim (s : string) : string :=
  string_of_list_ascii (rev (drop_ws (rev (drop_ws (list_ascii_of_string s))))).

(** ** Client creation *)

Inductive outcome (A : Type) := Ok (a : A) | Throw (msg : string).
Arguments Ok {A} a.
Arguments Throw {A} msg.

Definition findByUser (uid : Z) (d : db) : list client_row :=
  filter (fun c => bool_decide (c_user_id c = uid)) (clients d).

Definition findById (uid : Z) (d : db) : option user_row :=
  find (fun u => u_id u =? uid) (users d).

(** [clients.create]: [INSERT INTO clients (user_id, name, notes)]. *)
Definition clients_create (uid : Z) (name notes : string) (d : db) : client_row * db :=
  let c := {| c_id := next_id d; c_user_id := uid; c_name := name; c_notes := notes |} in
  (c, set_clients (clients d ++ [c]) (next_id d + 1) d).

Definition ceiling_le (n : Z) (l : ceiling) : bool :=
  match l with Fin k => k <=? n | Infinity => false end.

Definition ceiling_string (l : ceiling) : string :=
  match l with Fin k => z_to_string k | Infinity => "Infinity" end.

(** The bridge's [findOrCreateClient(userId, name)]. *)
Definition findOrCreateClient (uid : Z) (name : string) (d : db)
    : outcome (client_row * bool) * db :=
  let userClients := findByUser uid d in
  let normalized := trim (toLowerCase name) in
  match find (fun c => String.eqb (toLowerCase (c_name c)) normalized) userClients with
  | Some m => (Ok (m, false), d)
  | None =>
      match findById uid d with
      | None => (Throw "TypeError: Cannot read properties of undefined", d)
      | Some user =>
          let limit := lim_clients (PLAN_LIMITS (u_plan user)) in
          if ceiling_le (Z.of_nat (length userClients)) limit then
            (Throw ("Client limit reached (" ++ ceiling_string limit ++ " clients on "
                    ++ plan_name (u_plan user) ++ " plan).")%string, d)
          else
            let '(c, d') := clients_create uid (trim name) "" d in
            (Ok (c, true), d')
      end
  end.

Inductive bridge_reply := Sent (text : string).

(** The bridge's [@ClientName: message] handler, after the regex matched
    [rawName] and [clientMessage]. *)
Definition messages_create (cid : Z) (s : sender) (text : string) (d : db) : db :=
  {| users := users d; saved_responses := saved_responses d; clients := clients d;
     messages := messages d ++ [{| m_id := next_id d; m_client_id := cid;
                                   m_sender := s; m_text := text |}];
     usage := usage d; password_reset_tokens := password_reset_tokens d;
     telegram_link_tokens := telegram_link_tokens d; next_id := next_id d + 1 |}.

Definition bridge_log_message (uid : Z) (rawName clientMessage : string) (d : db)
    : bridge_reply * db :=
  match findOrCreateClient uid (trim rawName) d with
  | (Throw msg, d') => (Sent msg, d')
  | (Ok (c, isNew), d') =>
      let d'' := messages_create (c_id c) sender_client (trim clientMessage) d' in
      (Sent ((if isNew then "Created new client: " else "Logged for ")
             ++ c_name c ++ " ✓")%string, d'')
  end.

(** [POST /api/clients] behind [checkClientLimit]. *)
Definition post_clients (tz : zone) (now : Z) (user : user_row) (name notes : string) (d : db)
    : mw_result * db :=
  match checkClientLimit tz now user d with
  | Next => let '(c, d') := clients_create (u_id user) name notes d in (Respond 200 BSuccess, d')
  | r => (r, d)
  end.

(** Case-insensitive name uniqueness among one user's clients. *)
Definition names_unique_ci (uid : Z) (d : db) : Prop :=
  NoDup (map (fun c => toLowerCase (c_name c)) (findByUser uid d)).

(** ** [POST /api/auth/forgot-password] *)

Definition findByEmail (email : string) (d : db) : option user_row :=
  find (fun u => String.eqb (u_email u) email) (users d).

(** [passwordResetTokens.create]: clean-up, then insert; the insert
    throws when the token text is already present (token UNIQUE). *)
Definition reset_tokens_create (uid : Z) (tok : string) (expires now : Z) (d : db)
    : option db :=
  let tbl := deleteExpiredTokens (password_reset_tokens d) now in
  if existsb (fun r => String.eqb (t_token r) tok) tbl then None
  else Some (set_reset_tokens
               (tbl ++ [{| t_id := next_id d; t_user_id := uid; t_token := tok;
                           t_expires_at := expires; t_used := 0 |}])
               (next_id d + 1) d).

(** [email] is [req.body.email] ([None] when missing); [tok] the random
    token; [resend_configured] whether RESEND_API_KEY is set; [send_ok]
    whether [resend.emails.send] resolves. *)
Definition forgot_password (email : option string) (tok : string) (now : Z)
    (resend_configured send_ok : bool) (d : db) : (Z * body) * db :=
  match email with
  | None | Some EmptyString => ((400, BError "Email is required"), d)
  | Some e =>
      match findByEmail (toLowerCase e) d with
      | None => ((200, BSuccess), d)
      | Some user =>
          match reset_tokens_create (u_id user) tok (now + 60 * 60 * 1000) now d with
          | None => ((500, BError "Failed to process request"), d)
          | Some d' =>
              if resend_configured && negb send_ok
              then ((500, BError "Failed to process request"), d')
              else ((200, BSuccess), d')
          end
      end
  end.

(** Every row carrying token text [t] is marked used. *)
Definition tok_spent (t : string) (tbl : list token_row) : Prop :=
  Forall (fun r => t_token r = t -> t_used r = 1) tbl.

(** Every row holding token [t] expires strictly before [T0]. *)
Definition tok_expired_before (t : string) (T0 : Z) (tbl : list token_row) : Prop :=
  Forall (fun r => t_token r = t -> t_expires_at r < T0) tbl.

(** The month computed by [civil_from_days] from the day-of-era. *)
Definition month_of_doe (doe : Z) : Z :=
  let yoe := (doe - doe / 1460 + doe / 36524 - doe / 146096) / 365 in
  let doy := doe - (365 * yoe + yoe / 4 - yoe / 100) in
  let mp := (5 * doy + 2) / 153 in
  if mp <? 10 then mp + 3 else mp - 9.

(** [f k] for [k = lo, lo + 1, ..., lo + n - 1]. *)
Fixpoint all_from (f : Z -> bool) (n : nat) (lo : Z) : bool :=
  match n with
  | O => true
  | S n' => f lo && all_from f n' (lo + 1)
  end.

Definition month_in_range (doe : Z) : bool :=
  (1 <=? month_of_doe doe) && (month_of_doe doe <=? 12).

(** ** More routes and queries *)

(** [POST /api/messages] behind [checkMessageLimit]; the handler checks
    ownership again before [messages.create]. *)
Definition post_messages (tz : zone) (now : Z) (user : user_row) (clientId : Z) (from : sender)
    (text : string) (d : db) : mw_result * db :=
  match checkMessageLimit tz now user clientId d with
  | Next =>
      match findByIdAndUser clientId (u_id user) d with
      | None => (Respond 404 (BError "Client not found"), d)
      | Some _ => (Respond 200 BSuccess, messages_create clientId from text d)
      end
  | r => (r, d)
  end.

(** [UPDATE clients SET name = ?, notes = ? WHERE id = ? AND user_id = ?] *)
Definition clients_update (cid uid : Z) (name notes : string) (d : db) : db :=
  set_clients (map (fun c => if bool_decide (c_id c = cid) && bool_decide (c_user_id c = uid)
                             then {| c_id := c_id c; c_user_id := c_user_id c;
                                     c_name := name; c_notes := notes |}
                             else c) (clients d)) (next_id d) d.

(** [DELETE FROM clients WHERE id = ? AND user_id = ?]; the messages of the
    deleted client go with it (ON DELETE CASCADE). *)
Definition clients_delete (cid uid : Z) (d : db) : db :=
  let gone := map c_id (filter (fun c => bool_decide (c_id c = cid) &&
                                         bool_decide (c_user_id c = uid)) (clients d)) in
  {| users := users d; saved_responses := saved_responses d;
     clients := filter (fun c => negb (bool_decide (c_id c = cid) &&
                                       bool_decide (c_user_id c = uid))) (clients d);
     messages := filter (fun m => bool_decide (m_client_id m ∉ gone)) (messages d);
     usage := usage d; password_reset_tokens := password_reset_tokens d;
     telegram_link_tokens := telegram_link_tokens d; next_id := next_id d |}.

(** [PUT /api/clients/:id]; [name]/[notes] are [req.body.name]/[notes],
    [None] when null or missing ([??] keeps the stored value). *)
Definition put_client (user : user_row) (cid : Z) (name notes : option string) (d : db)
    : mw_result * db :=
  match findByIdAndUser cid (u_id user) d with
  | None => (Respond 404 (BError "Client not found"), d)
  | Some c => (Respond 200 BSuccess,
               clients_update cid (u_id user) (default (c_name c) name)
                 (default (c_notes c) notes) d)
  end.

(** [DELETE /api/clients/:id]. *)
Definition delete_client (user : user_row) (cid : Z) (d : db) : mw_result * db :=
  match findByIdAndUser cid (u_id user) d with
  | None => (Respond 404 (BError "Client not found"), d)
  | Some _ => (Respond 200 BSuccess, clients_delete cid (u_id user) d)
  end.

(** A count against a plan ceiling. *)
Definition within_ceiling (n : Z) (l : ceiling) : Prop :=
  match l with Fin k => n <= k | Infinity => True end.

(** No usage row disappears and no counter goes down from [d] to [d']. *)
Definition usage_grows (d d' : db) : Prop :=
  forall (k : Z * string) (r : usage_row), usage d !! k = Some r ->
  exists r', usage d' !! k = Some r' /\
    ai_respond_count r <= ai_respond_count r' /\
    ai_improve_count r <= ai_improve_count r' /\
    transcribe_count r <= transcribe_count r'.

(** ** Authentication routes (the auth router)

    The password_hash column is kept in a map from user id to hash;
    [hash] is the value [bcrypt.hash] produced and [compare] stands for
    [bcrypt.compare]. *)

Inductive auth_body :=
  | AUser (u : user_row)
  | AError (msg : string)
  | ASuccess.

(** [users.create]: the insert fails on a duplicate email (UNIQUE). *)
Definition users_create (email name : string) (p : plan) (hash : string) (d : db)
    (pw : gmap Z string) : option (Z * db * gmap Z string) :=
  if existsb (fun u => String.eqb (u_email u) email) (users d) then None
  else
    let uid := next_id d in
    let u := {| u_id := uid; u_email := email; u_name := name; u_plan := p;
                u_telegram_chat_id := None; u_telegram_username := None |} in
    Some (uid,
          {| users := users d ++ [u]; saved_responses := saved_responses d;
             clients := clients d; messages := messages d; usage := usage d;
             password_reset_tokens := password_reset_tokens d;
             telegram_link_tokens := telegram_link_tokens d; next_id := uid + 1 |},
          <[uid := hash]> pw).

(** [POST /api/auth/signup]. *)
Definition signup (email password name : option string) (hash : string) (d : db)
    (pw : gmap Z string) : (Z * auth_body) * (db * gmap Z string) :=
  match email, password with
  | Some e, Some p =>
      if String.eqb e "" || String.eqb p "" then
        ((400, AError "Email and password are required"), (d, pw))
      else if (String.length p <? 8)%nat then
        ((400, AError "Password must be at least 8 characters"), (d, pw))
      else
        match findByEmail (toLowerCase e) d with
        | Some _ => ((400, AError "Email already registered"), (d, pw))
        | None =>
            match users_create (toLowerCase e) (default "" name) free hash d pw with
            | None => ((500, AError "Failed to create account"), (d, pw))
            | Some (uid, d', pw') =>
                match findById uid d' with
                | Some u => ((201, AUser u), (d', pw'))
                | None => ((500, AError "Failed to create account"), (d', pw'))
                end
            end
        end
  | _, _ => ((400, AError "Email and password are required"), (d, pw))
  end.

(** [POST /api/auth/login]. *)
Definition login (compare : string -> string -> bool) (email password : option string)
    (d : db) (pw : gmap Z string) : Z * auth_body :=
  match email, password with
  | Some e, Some p =>
      if String.eqb e "" || String.eqb p "" then
        (400, AError "Email and password are required")
      else
        match findByEmail (toLowerCase e) d with
        | None => (401, AError "Invalid email or password")
        | Some u =>
            if compare p (default "" (pw !! u_id u)) then (200, AUser u)
            else (401, AError "Invalid email or password")
        end
  | _, _ => (400, AError "Email and password are required")
  end.

(** [POST /api/auth/reset-password]. *)
Definition reset_password (token newPassword : option string) (now : Z) (hash : string)
    (d : db) (pw : gmap Z string) : (Z * auth_body) * (db * gmap Z string) :=
  match token, newPassword with
  | Some t, Some p =>
      if String.eqb t "" || String.eqb p "" then
        ((400, AError "Token and new password are required"), (d, pw))
      else if (String.length p <? 8)%nat then
        ((400, AError "Password must be at least 8 characters"), (d, pw))
      else
        match findByToken (password_reset_tokens d) t now with
        | None => ((400, AError "Invalid or expired reset token"), (d, pw))
        | Some r =>
            match findById (t_user_id r) d with
            | None => ((400, AError "User not found"), (d, pw))
            | Some u =>
                ((200, ASuccess),
                 (set_reset_tokens (markUsed (password_reset_tokens d) t) (next_id d) d,
                  <[u_id u := hash]> pw))
            end
        end
  | _, _ => ((400, AError "Token and new password are required"), (d, pw))
  end.

(** * Sample data used by the witnesses *)

Definition user1 (p : plan) : user_row :=
  {| u_id := 1; u_email := "ann@example.com"; u_name := "Ann"; u_plan := p;
     u_telegram_chat_id := None; u_telegram_username := None |}.

Definition empty_db : db :=
  {| users := [user1 free]; saved_responses := []; clients := []; messages := [];
     usage := ∅; password_reset_tokens := []; telegram_link_tokens := [];
     next_id := 100 |}.

(** 2026-02-10T12:00:00Z *)
Definition feb10 : Z := 1770724800000.

Definition db_with_usage (month : string) (r : usage_row) : db :=
  set_usage {[ (1, month) := r ]} empty_db.

Definition mk_client (id : Z) (name : string) : client_row :=
  {| c_id := id; c_user_id := 1; c_name := name; c_notes := "" |}.

Definition five_clients_db : db :=
  set_clients (map (fun i => mk_client i ("c" ++ z_to_string i)%string) [1; 2; 3; 4; 5])
    100 empty_db.

Definition db19 : db :=
  db_with_usage "2026-02" {| ai_respond_count := 19; ai_improve_count := 0;
                             transcribe_count := 0 |}.

(** Two aiRespond requests of one free-plan account, interleaved at the
    provider [await]: both checks, then both completions. *)
Definition race_events : list event :=
  [ {| ev_req := 0; ev_time := feb10; ev_ok := true |};
    {| ev_req := 1; ev_time := feb10; ev_ok := true |};
    {| ev_req := 0; ev_time := feb10 + 1000; ev_ok := true |};
    {| ev_req := 1; ev_time := feb10 + 1000; ev_ok := true |} ].

(** A link token "tok1" of user 1 issued at [feb10]. *)
Definition link_row (exp used : Z) : token_row :=
  {| t_id := 50; t_user_id := 1; t_token := "tok1"; t_expires_at := exp; t_used := used |}.

Definition db_link (exp used : Z) : db := set_link_tokens [link_row exp used] 100 empty_db.

(** 2026-01-31T23:59:59Z and 2026-02-01T00:00:01Z. *)
Definition jan31_late : Z := 1769903999000.
Definition feb1_early : Z := 1769904001000.

Definition db_jan5 : db :=
  db_with_usage "2026-01" {| ai_respond_count := 5; ai_improve_count := 0;
                             transcribe_count := 0 |}.

(** One request checked before midnight, completed after it. *)
Definition boundary_events : list event :=
  [ {| ev_req := 0; ev_time := jan31_late; ev_ok := true |};
    {| ev_req := 0; ev_time := feb1_early; ev_ok := true |} ].

Definition four_clients_db : db :=
  set_clients (map (fun i => mk_client i ("c" ++ z_to_string i)%string) [1; 2; 3; 4])
    100 empty_db.

Definition msg_row (i : nat) : message_row :=
  {| m_id := 1000 + Z.of_nat i; m_client_id := 1; m_sender := sender_client; m_text := "hi" |}.

(** Account 1 with one client "Bob" (id 1) holding [n] messages. *)
Definition client_msgs_db (n : nat) : db :=
  {| users := [user1 free]; saved_responses := []; clients := [mk_client 1 "Bob"];
     messages := map msg_row (seq 0 n); usage := ∅; password_reset_tokens := [];
     telegram_link_tokens := []; next_id := 2000 |}.

Definition user2 : user_row :=
  {| u_id := 2; u_email := "bo@example.com"; u_name := "Bo"; u_plan := paid;
     u_telegram_chat_id := None; u_telegram_username := None |}.

Definition zed : user_row :=
  {| u_id := 100; u_email := "zed@example.com"; u_name := "Zed"; u_plan := free;
     u_telegram_chat_id := None; u_telegram_username := None |}.

Definition ann_pw : gmap Z string := {[ 1 := "secret123" ]}.

Definition reset_row (tok : string) (exp used : Z) : token_row :=
  {| t_id := 60; t_user_id := 1; t_token := tok; t_expires_at := exp; t_used := used |}.

Definition db_reset : db := set_reset_tokens [reset_row "rt1" (feb10 + 3600000) 0] 100 empty_db.

(** * Theorems *)

(** ** C1: at the ceiling, the check answers 429 limit_exceeded *)

(** C1. For every plan, metered operation with a finite ceiling [lim],
    and state where the current month's consumed count is at least
    [lim], [checkAILimit] answers 429 with a limit_exceeded body whose
    [current] is the consumed count and [limit] is [lim] (it does not
    call [next]); likewise [checkClientLimit] against [countByUser]. *)
Theorem limit_check_denies_at_ceiling :
  (forall (ty : ai_type) (tz : zone) (now lim : Z) (user : user_row) (d : db),
     ai_limit (PLAN_LIMITS (u_plan user)) ty = Fin lim ->
     lim <= current_usage ty tz now (u_id user) d ->
     exists msg,
       fst (checkAILimit ty tz now user d) =
       Respond 429 (BLimit (limitError tz now (LAi ty)
                              (current_usage ty tz now (u_id user) d) lim msg))) /\
  (forall (tz : zone) (now lim : Z) (user : user_row) (d : db),
     lim_clients (PLAN_LIMITS (u_plan user)) = Fin lim ->
     lim <= countByUser (u_id user) d ->
     exists msg,
       checkClientLimit tz now user d =
       Respond 429 (BLimit (limitError tz now LClients (countByUser (u_id user) d) lim msg))).
Proof.
  split.
  - intros ty tz now lim user d Hlim Hge.
    unfold checkAILimit, current_usage in *. rewrite Hlim.
    destruct (usage_get tz now (u_id user) d) as [r d'] eqn:E. simpl in *.
    rewrite (proj2 (Z.leb_le _ _) Hge). eexists. reflexivity.
  - intros tz now lim user d Hlim Hge.
    unfold checkClientLimit. rewrite Hlim.
    rewrite (proj2 (Z.leb_le _ _) Hge). eexists. reflexivity.
Qed.

(** The spec's example: free plan, aiRespond ceiling 20, 20 consumed. *)
Lemma limit_check_denies_at_ceiling_witness :
  ai_limit (PLAN_LIMITS free) aiRespond = Fin 20 /\
  current_usage aiRespond utc feb10 1
    (db_with_usage "2026-02" {| ai_respond_count := 20; ai_improve_count := 0;
                                transcribe_count := 0 |}) = 20 /\
  exists msg,
    fst (checkAILimit aiRespond utc feb10 (user1 free)
           (db_with_usage "2026-02" {| ai_respond_count := 20; ai_improve_count := 0;
                                       transcribe_count := 0 |})) =
    Respond 429 (BLimit (limitError utc feb10 (LAi aiRespond) 20 20 msg)).
Proof.
  split; [reflexivity|]. split; [vm_compute; reflexivity|].
  pose proof (proj1 limit_check_denies_at_ceiling aiRespond utc feb10 20 (user1 free)
    (db_with_usage "2026-02" {| ai_respond_count := 20; ai_improve_count := 0;
                                transcribe_count := 0 |}) eq_refl) as H.
  assert (Hc : current_usage aiRespond utc feb10 (u_id (user1 free))
    (db_with_usage "2026-02" {| ai_respond_count := 20; ai_improve_count := 0;
                                transcribe_count := 0 |}) = 20)
    by (vm_compute; reflexivity).
  rewrite Hc in H. apply H. lia.
Defined.

(** ** C2: check and increment are separate steps *)

Lemma row_count_upsert (ty : ai_type) (uid uid' : Z) (M m : string) (d : db) :
  row_count ty uid M (upsertUsage uid' m d) = row_count ty uid M d.
Proof.
  unfold row_count, upsertUsage.
  destruct (usage d !! (uid', m)) eqn:E; [reflexivity|]. simpl.
  destruct (decide ((uid', m) = (uid, M))) as [Heq|Hne].
  - rewrite <- Heq, lookup_insert_eq, E. destruct ty; reflexivity.
  - rewrite lookup_insert_ne by exact Hne. reflexivity.
Qed.

Lemma upsert_lookup (uid : Z) (m : string) (d : db) :
  usage (upsertUsage uid m d) !! (uid, m) = Some (default zero_usage (usage d !! (uid, m))).
Proof.
  unfold upsertUsage. destruct (usage d !! (uid, m)) eqn:E.
  - rewrite E. reflexivity.
  - simpl. apply lookup_insert_eq.
Qed.

Lemma count_of_bump (ty : ai_type) (r : usage_row) : count_of ty (bump ty r) = count_of ty r + 1.
Proof. destruct ty; reflexivity. Qed.

Lemma row_count_increment_same (ty : ai_type) (tz : zone) (now uid : Z) (M : string) (d : db) :
  getCurrentMonth tz now = M ->
  row_count ty uid M (usage_increment ty tz now uid d) = row_count ty uid M d + 1.
Proof.
  intros HM. unfold usage_increment. rewrite HM.
  rewrite <- (row_count_upsert ty uid uid M M d).
  unfold incrementStmt. rewrite upsert_lookup. unfold row_count at 1. simpl.
  rewrite lookup_insert_eq, count_of_bump. unfold row_count. rewrite upsert_lookup.
  reflexivity.
Qed.

Lemma row_count_check (ty : ai_type) (tz : zone) (now uid : Z) (M : string) (user : user_row) (d : db) :
  row_count ty uid M (snd (checkAILimit ty tz now user d)) = row_count ty uid M d.
Proof.
  unfold checkAILimit. destruct (ai_limit _ ty); [|reflexivity].
  unfold usage_get. simpl. destruct (_ <=? _); simpl; apply row_count_upsert.
Qed.

Lemma count_done_insert (pcs : list req_pc) (i : nat) (pc pc' : req_pc) :
  pcs !! i = Some pc ->
  Z.of_nat (count_done (<[i := pc']> pcs)) =
  Z.of_nat (count_done pcs) - b2z (is_done pc) + b2z (is_done pc').
Proof.
  revert i. induction pcs as [|x pcs IH]; intros i Hi.
  - discriminate.
  - destruct i as [|i]; simpl in *.
    + injection Hi as ->. unfold b2z. destruct (is_done pc), (is_done pc'); lia.
    + specialize (IH i Hi). destruct (is_done x); lia.
Qed.

Lemma req_step_row_count (ty : ai_type) (tz : zone) (now : Z) (user : user_row) (ok : bool)
    (pc : req_pc) (d : db) (M : string) :
  getCurrentMonth tz now = M ->
  row_count ty (u_id user) M (snd (req_step ty tz user now ok pc d)) =
  row_count ty (u_id user) M d - b2z (is_done pc)
    + b2z (is_done (fst (req_step ty tz user now ok pc d))).
Proof.
  intros HM. destruct pc; simpl.
  - pose proof (row_count_check ty tz now (u_id user) M user d) as Hc.
    destruct (checkAILimit ty tz now user d) as [[|st b] d'] eqn:E; simpl in *; lia.
  - destruct ok; simpl.
    + rewrite (row_count_increment_same ty tz now (u_id user) M d HM). lia.
    + lia.
  - lia.
  - lia.
  - lia.
Qed.

(** C2 (amended). The check and the increment are separate steps: no
    increment is lost, since over any interleaving of one account's
    metered requests within one month the counter grows by exactly the
    number of requests that completed successfully. *)
Theorem ai_usage_increments_not_lost (ty : ai_type) (tz : zone) (user : user_row)
    (M : string) (evs : list event) (pcs : list req_pc) (d : db) :
  Forall (fun e => getCurrentMonth tz (ev_time e) = M) evs ->
  row_count ty (u_id user) M (snd (run_reqs ty tz user evs pcs d)) =
  row_count ty (u_id user) M d
    + Z.of_nat (count_done (fst (run_reqs ty tz user evs pcs d)))
    - Z.of_nat (count_done pcs).
Proof.
  revert pcs d. induction evs as [|e evs IH]; intros pcs d Hall; simpl.
  - lia.
  - apply Forall_cons in Hall as [He Hrest].
    destruct (pcs !! ev_req e) as [pc|] eqn:Hpc.
    + pose proof (req_step_row_count ty tz (ev_time e) user (ev_ok e) pc d M He) as Hs.
      destruct (req_step ty tz user (ev_time e) (ev_ok e) pc d) as [pc' d'] eqn:Estep.
      simpl in Hs. rewrite (IH _ _ Hrest).
      rewrite (count_done_insert pcs (ev_req e) pc pc' Hpc). lia.
    + apply IH. exact Hrest.
Qed.

Lemma ai_usage_increments_not_lost_witness :
  Forall (fun e => getCurrentMonth utc (ev_time e) = "2026-02"%string) race_events /\
  row_count aiRespond 1 "2026-02" (snd (run_reqs aiRespond utc (user1 free) race_events
                                         [RStart; RStart] db19)) =
  row_count aiRespond 1 "2026-02" db19
    + Z.of_nat (count_done (fst (run_reqs aiRespond utc (user1 free) race_events
                                   [RStart; RStart] db19)))
    - Z.of_nat (count_done [RStart; RStart]).
Proof.
  assert (H : Forall (fun e => getCurrentMonth utc (ev_time e) = "2026-02"%string) race_events).
  { repeat constructor. }
  split; [exact H|].
  exact (ai_usage_increments_not_lost aiRespond utc (user1 free) "2026-02" race_events
           [RStart; RStart] db19 H).
Defined.

(** C2 counterexample. The check does not increment: two requests of a
    free account at 19/20 both pass the check while the counter stays at
    19, and both complete, leaving the counter at 21 > 20, which a
    single atomic check-and-increment would exclude. *)
Lemma ai_check_increment_race :
  fst (run_reqs aiRespond utc (user1 free) (take 2 race_events) [RStart; RStart] db19)
    = [RAwait; RAwait] /\
  row_count aiRespond 1 "2026-02"
    (snd (run_reqs aiRespond utc (user1 free) (take 2 race_events) [RStart; RStart] db19))
    = 19 /\
  fst (run_reqs aiRespond utc (user1 free) race_events [RStart; RStart] db19)
    = [RDone; RDone] /\
  row_count aiRespond 1 "2026-02"
    (snd (run_reqs aiRespond utc (user1 free) race_events [RStart; RStart] db19))
    = 21.
Proof. vm_compute. repeat split. Qed.

(** ** C3: a redeemed link token is never redeemed again *)

Lemma findByToken_spent (tbl : list token_row) (t : string) (now : Z) :
  tok_spent t tbl -> findByToken tbl t now = None.
Proof.
  intros Hs. unfold findByToken.
  destruct (find _ tbl) as [r|] eqn:E; [|reflexivity].
  apply find_some in E as [Hin Hr].
  apply andb_prop in Hr as [Ht Hu].
  apply String.eqb_eq in Ht. apply Z.eqb_eq in Hu.
  unfold tok_spent in Hs. rewrite Forall_forall in Hs.
  specialize (Hs r (proj2 (list_elem_of_In _ _) Hin) Ht). lia.
Qed.

Lemma markUsed_spent_same (tbl : list token_row) (t : string) :
  tok_spent t (markUsed tbl t).
Proof.
  unfold tok_spent, markUsed. induction tbl as [|r tbl IH]; simpl; constructor; auto.
  destruct (String.eqb (t_token r) t) eqn:E; simpl; [reflexivity|].
  intros Heq. apply String.eqb_neq in E. contradiction.
Qed.

Lemma markUsed_spent_other (tbl : list token_row) (t t' : string) :
  tok_spent t tbl -> tok_spent t (markUsed tbl t').
Proof.
  unfold tok_spent, markUsed. induction tbl as [|r tbl IH]; intros Hs; simpl; [constructor|].
  apply Forall_cons in Hs as [Hr Hs]. constructor; auto.
  destruct (String.eqb (t_token r) t'); simpl; auto.
Qed.

Lemma deleteExpired_spent (tbl : list token_row) (t : string) (now : Z) :
  tok_spent t tbl -> tok_spent t (deleteExpiredTokens tbl now).
Proof.
  unfold tok_spent, deleteExpiredTokens. rewrite !Forall_forall.
  intros Hs r Hr. apply list_elem_of_filter in Hr as [_ Hr]. auto.
Qed.

Lemma link_step_spent (t : string) (d : db) (op : link_op) :
  issues_token t op = false ->
  tok_spent t (telegram_link_tokens d) ->
  tok_spent t (telegram_link_tokens (link_step d op)).
Proof.
  intros Hop Hs. destruct op as [c u targ now|uid tok now|uid]; simpl.
  - unfold start_handler.
    destruct targ as [[|a tok]|].
    + destruct (findByTelegramChatId c d); exact Hs.
    + destruct (findByToken _ _ now); [|exact Hs]. simpl.
      destruct (setTelegramChat _ _ _ _); simpl; [|exact Hs].
      apply markUsed_spent_other. exact Hs.
    + destruct (findByTelegramChatId c d); exact Hs.
  - simpl in Hop. unfold telegram_connect.
    destruct (existsb _ _); simpl; [apply deleteExpired_spent; exact Hs|].
    unfold tok_spent. rewrite Forall_app. split.
    + apply deleteExpired_spent. exact Hs.
    + constructor; [|constructor]. simpl. intros ->. rewrite String.eqb_refl in Hop. discriminate.
  - exact Hs.
Qed.

Lemma run_link_ops_spent (t : string) (ops : list link_op) (d : db) :
  Forall (fun op => issues_token t op = false) ops ->
  tok_spent t (telegram_link_tokens d) ->
  tok_spent t (telegram_link_tokens (run_link_ops d ops)).
Proof.
  unfold run_link_ops. revert d. induction ops as [|op ops IH]; intros d Hops Hs; simpl.
  - exact Hs.
  - apply Forall_cons in Hops as [Hop Hops]. apply IH; [exact Hops|].
    apply link_step_spent; assumption.
Qed.

Lemma markUsed_expired (tbl : list token_row) (t t' : string) (T0 : Z) :
  tok_expired_before t T0 tbl -> tok_expired_before t T0 (markUsed tbl t').
Proof.
  unfold tok_expired_before, markUsed.
  induction tbl as [|r tbl IH]; intros Hs; simpl; [constructor|].
  apply Forall_cons in Hs as [Hr Hs]. constructor; auto.
  destruct (String.eqb (t_token r) t'); simpl; auto.
Qed.

Lemma deleteExpired_expired (tbl : list token_row) (t : string) (T0 now : Z) :
  tok_expired_before t T0 tbl -> tok_expired_before t T0 (deleteExpiredTokens tbl now).
Proof.
  unfold tok_expired_before, deleteExpiredTokens. rewrite !Forall_forall.
  intros Hs r Hr. apply list_elem_of_filter in Hr as [_ Hr]. auto.
Qed.

Lemma link_step_expired (t : string) (T0 : Z) (d : db) (op : link_op) :
  issues_token t op = false ->
  tok_expired_before t T0 (telegram_link_tokens d) ->
  tok_expired_before t T0 (telegram_link_tokens (link_step d op)).
Proof.
  intros Hop Hs. destruct op as [c u targ now|uid tok now|uid]; simpl.
  - unfold start_handler.
    destruct targ as [[|a tok]|].
    + destruct (findByTelegramChatId c d); exact Hs.
    + destruct (findByToken _ _ now); [|exact Hs]. simpl.
      destruct (setTelegramChat _ _ _ _); simpl; [|exact Hs].
      apply markUsed_expired. exact Hs.
    + destruct (findByTelegramChatId c d); exact Hs.
  - simpl in Hop. unfold telegram_connect.
    destruct (existsb _ _); simpl; [apply deleteExpired_expired; exact Hs|].
    unfold tok_expired_before. rewrite Forall_app. split.
    + apply deleteExpired_expired. exact Hs.
    + constructor; [|constructor]. simpl. intros ->. rewrite String.eqb_refl in Hop. discriminate.
  - exact Hs.
Qed.

Lemma run_link_ops_expired (t : string) (T0 : Z) (ops : list link_op) (d : db) :
  Forall (fun op => issues_token t op = false) ops ->
  tok_expired_before t T0 (telegram_link_tokens d) ->
  tok_expired_before t T0 (telegram_link_tokens (run_link_ops d ops)).
Proof.
  unfold run_link_ops. revert d. induction ops as [|op ops IH]; intros d Hops Hs; simpl.
  - exact Hs.
  - apply Forall_cons in Hops as [Hop Hops]. apply IH; [exact Hops|].
    apply link_step_expired; assumption.
Qed.

(** C3 (amended). Redeemed and strictly expired are terminal.  Once
    [/start t] links an account, the token is spent: after any later
    operations (other redemptions, unlinking, clean-ups, issuing of other
    tokens) every redemption of [t] answers Invalid.  The handler runs
    without an [await], so two concurrent redemptions are two consecutive
    runs and the second one fails.  Once a time [T0] is strictly past the
    expiry of every row holding [t], every redemption of [t] at [T0] or
    later, after any operations that do not issue [t] again, answers
    Invalid. *)
Theorem link_token_single_use :
  (forall (chat : Z) (username : string) (t : string) (now : Z) (d : db) (uid : Z),
     fst (start_handler chat username (Some t) now d) = ReplyConnected uid ->
     forall (ops : list link_op), Forall (fun op => issues_token t op = false) ops ->
     forall (chat' : Z) (username' : string) (now' : Z),
       fst (start_handler chat' username' (Some t) now'
              (run_link_ops (snd (start_handler chat username (Some t) now d)) ops))
       = ReplyInvalid) /\
  (forall (t : string) (T0 : Z) (d : db) (ops : list link_op)
          (chat : Z) (username : string) (now : Z),
     t <> EmptyString ->
     tok_expired_before t T0 (telegram_link_tokens d) ->
     Forall (fun op => issues_token t op = false) ops ->
     T0 <= now ->
     fst (start_handler chat username (Some t) now (run_link_ops d ops)) = ReplyInvalid).
Proof.
  split.
  - intros chat username t now d uid H ops Hops chat' username' now'.
    destruct t as [|a t'].
    + simpl in H. destruct (findByTelegramChatId chat d); discriminate.
    + assert (Hs : tok_spent (String a t')
                     (telegram_link_tokens (snd (start_handler chat username
                                                   (Some (String a t')) now d)))).
      { unfold start_handler in *.
        destruct (findByToken _ _ now) as [lt|]; [|discriminate].
        simpl in *. destruct (setTelegramChat _ _ _ _); [|discriminate].
        simpl. apply markUsed_spent_same. }
      pose proof (run_link_ops_spent _ ops _ Hops Hs) as Hs'.
      unfold start_handler at 1.
      rewrite (findByToken_spent _ _ now' Hs'). reflexivity.
  - intros t T0 d ops chat username now Hne Hexp Hops Hle.
    destruct t as [|a t']; [contradiction|].
    pose proof (run_link_ops_expired _ T0 ops d Hops Hexp) as Hx.
    unfold start_handler. unfold findByToken.
    destruct (find _ _) as [r|] eqn:E; [|reflexivity].
    apply find_some in E as [Hin Hr]. apply andb_prop in Hr as [Ht _].
    apply String.eqb_eq in Ht. unfold tok_expired_before in Hx.
    rewrite Forall_forall in Hx.
    specialize (Hx r (proj2 (list_elem_of_In _ _) Hin) Ht).
    replace (t_expires_at r <? now) with true by (symmetry; apply Z.ltb_lt; lia).
    reflexivity.
Qed.

(** Two redemptions of the same fresh token: the first links user 1, the
    second answers Invalid.  A token that expired at [feb10]: after a
    clean-up and the issue of another token, a redemption at
    [feb10] + 2 ms answers Invalid. *)
Lemma link_token_single_use_witness :
  (fst (start_handler 7 "ann" (Some "tok1") feb10 (db_link (feb10 + LINK_TOKEN_TTL) 0))
     = ReplyConnected 1 /\
   fst (start_handler 8 "eve" (Some "tok1") (feb10 + 1)
          (run_link_ops (snd (start_handler 7 "ann" (Some "tok1") feb10
                                 (db_link (feb10 + LINK_TOKEN_TTL) 0))) []))
     = ReplyInvalid) /\
  (tok_expired_before "tok1" (feb10 + 1) (telegram_link_tokens (db_link feb10 0)) /\
   fst (start_handler 7 "ann" (Some "tok1") (feb10 + 2)
          (run_link_ops (db_link feb10 0) [OpConnect 1 "tok2" (feb10 + 1)]))
     = ReplyInvalid).
Proof.
  assert (H : fst (start_handler 7 "ann" (Some "tok1") feb10
                     (db_link (feb10 + LINK_TOKEN_TTL) 0)) = ReplyConnected 1)
    by (vm_compute; reflexivity).
  assert (Hx : tok_expired_before "tok1" (feb10 + 1) (telegram_link_tokens (db_link feb10 0))).
  { unfold tok_expired_before. simpl. constructor; [|constructor].
    simpl. intros _. unfold feb10. lia. }
  split; split.
  - exact H.
  - exact (proj1 link_token_single_use 7 "ann" "tok1" feb10 _ 1 H [] (List.Forall_nil _)
             8 "eve" (feb10 + 1)).
  - exact Hx.
  - apply (proj2 link_token_single_use "tok1" (feb10 + 1)); [discriminate|exact Hx| |lia].
    constructor; [reflexivity|constructor].
Defined.

(** C3 counterexample.  A token issued at [feb10] expires at
    [feb10] + 15 min; at exactly that instant, the account issues a new
    token (the clean-up keeps the old row, since SQLite compares dates
    only) and the old token is then redeemed: at or past its expiry
    instant, the expired token moves to Redeemed. *)
Lemma link_token_redeemed_at_expiry_after_cleanup :
  let d1 := default empty_db (telegram_connect 1 "tok1" feb10 empty_db) in
  let d2 := default d1 (telegram_connect 1 "tok2" (feb10 + LINK_TOKEN_TTL) d1) in
  telegram_connect 1 "tok1" feb10 empty_db <> None /\
  telegram_connect 1 "tok2" (feb10 + LINK_TOKEN_TTL) d1 <> None /\
  List.map t_expires_at (List.filter (fun r => String.eqb (t_token r) "tok1")
                           (telegram_link_tokens d2)) = [feb10 + LINK_TOKEN_TTL] /\
  fst (start_handler 7 "ann" (Some "tok1") (feb10 + LINK_TOKEN_TTL) d2) = ReplyConnected 1.
Proof. vm_compute. repeat split; discriminate. Qed.

(** ** C4: expiry of link tokens *)

Lemma findByToken_Some (tbl : list token_row) (t : string) (now : Z) (r : token_row) :
  findByToken tbl t now = Some r ->
  In r tbl /\ t_token r = t /\ t_used r = 0 /\ now <= t_expires_at r.
Proof.
  unfold findByToken. destruct (find _ tbl) as [r'|] eqn:E; [|discriminate].
  destruct (t_expires_at r' <? now) eqn:Hexp; [discriminate|].
  intros [= <-]. apply find_some in E as [Hin Hr].
  apply andb_prop in Hr as [Ht Hu].
  apply String.eqb_eq in Ht. apply Z.eqb_eq in Hu. apply Z.ltb_ge in Hexp. auto.
Qed.

Lemma findByToken_expired (tbl : list token_row) (t : string) (now : Z) :
  Forall (fun r => t_token r = t -> t_expires_at r < now) tbl ->
  findByToken tbl t now = None.
Proof.
  intros Hall. unfold findByToken.
  destruct (find _ tbl) as [r|] eqn:E; [|reflexivity].
  apply find_some in E as [Hin Hr]. apply andb_prop in Hr as [Ht _].
  apply String.eqb_eq in Ht. rewrite Forall_forall in Hall.
  specialize (Hall r (proj2 (list_elem_of_In _ _) Hin) Ht).
  apply Z.ltb_lt in Hall. rewrite Hall. reflexivity.
Qed.

(** C4 (amended). [/start t] resolves to account [uid] only if a row
    with token [t], owner [uid] and used flag 0 exists and the lookup
    time is not past its expiry instant; once the lookup time is strictly
    past the expiry of every row with token [t], redemption answers
    Invalid whatever the used flag; a token issued at [T] and redeemed
    at [T] + 16 minutes is Invalid. *)
Theorem link_token_expiry :
  (forall (chat : Z) (un t : string) (now : Z) (d : db) (uid : Z),
     fst (start_handler chat un (Some t) now d) = ReplyConnected uid ->
     exists r, In r (telegram_link_tokens d) /\ t_token r = t /\ t_user_id r = uid /\
               t_used r = 0 /\ now <= t_expires_at r) /\
  (forall (chat : Z) (un t : string) (now : Z) (d : db),
     t <> EmptyString ->
     Forall (fun r => t_token r = t -> t_expires_at r < now) (telegram_link_tokens d) ->
     fst (start_handler chat un (Some t) now d) = ReplyInvalid) /\
  (forall (uid : Z) (t : string) (T : Z) (d d' : db) (chat : Z) (un : string),
     t <> EmptyString ->
     telegram_connect uid t T d = Some d' ->
     fst (start_handler chat un (Some t) (T + 16 * 60 * 1000) d') = ReplyInvalid).
Proof.
  assert (Hb : forall (chat : Z) (un t : string) (now : Z) (d : db),
     t <> EmptyString ->
     Forall (fun r => t_token r = t -> t_expires_at r < now) (telegram_link_tokens d) ->
     fst (start_handler chat un (Some t) now d) = ReplyInvalid).
  { intros chat un t now d Hne Hall. destruct t as [|a t]; [contradiction|].
    unfold start_handler. rewrite (findByToken_expired _ _ _ Hall). reflexivity. }
  split; [|split; [exact Hb|]].
  - intros chat un t now d uid H. destruct t as [|a t].
    + simpl in H. destruct (findByTelegramChatId chat d); discriminate.
    + unfold start_handler in H.
      destruct (findByToken _ _ now) as [r|] eqn:E; [|discriminate].
      simpl in H. destruct (setTelegramChat _ _ _ _); [|discriminate].
      injection H as <-. apply findByToken_Some in E as (Hin & Ht & Hu & Hle).
      exists r. auto.
  - intros uid t T d d' chat un Hne Hc. apply Hb; [exact Hne|].
    unfold telegram_connect in Hc.
    destruct (existsb _ _) eqn:Hex; [discriminate|].
    injection Hc as <-. simpl. rewrite Forall_app. split.
    + rewrite Forall_forall. intros r Hr Ht. exfalso.
      assert (Hin : In r (deleteExpiredTokens (telegram_link_tokens d) T))
        by (apply list_elem_of_In; exact Hr).
      assert (Hx : existsb (fun r => String.eqb (t_token r) t)
                     (deleteExpiredTokens (telegram_link_tokens d) T) = true).
      { apply existsb_exists. exists r. split; [exact Hin|].
        apply String.eqb_eq. exact Ht. }
      rewrite Hex in Hx. discriminate.
    + constructor; [|constructor]. simpl. intros _. unfold LINK_TOKEN_TTL. lia.
Qed.

(** Issue "tok1" at [feb10]; redeem at [feb10] + 16 minutes. *)
Lemma link_token_expiry_witness :
  telegram_connect 1 "tok1" feb10 empty_db <> None /\
  fst (start_handler 7 "ann" (Some "tok1") (feb10 + 16 * 60 * 1000)
         (default empty_db (telegram_connect 1 "tok1" feb10 empty_db))) = ReplyInvalid.
Proof.
  split; [vm_compute; discriminate|].
  apply (proj2 (proj2 link_token_expiry) 1 "tok1" feb10 empty_db); [discriminate|].
  vm_compute. reflexivity.
Defined.

(** C4 counterexample. The expiry test is [expires_at < now]: at the
    exact expiry instant an unused token still links the account. *)
Lemma link_token_redeemable_at_expiry_instant :
  fst (start_handler 7 "ann" (Some "tok1") (feb10 + LINK_TOKEN_TTL)
         (db_link (feb10 + LINK_TOKEN_TTL) 0)) = ReplyConnected 1.
Proof. vm_compute. reflexivity. Qed.

(** ** C5: the month key and the reset instant use the host's local calendar *)

Lemma all_from_spec (f : Z -> bool) (n : nat) (lo : Z) :
  all_from f n lo = true -> forall k, lo <= k < lo + Z.of_nat n -> f k = true.
Proof.
  revert lo. induction n as [|n IH]; intros lo H k Hk; simpl in *.
  - lia.
  - apply andb_prop in H as [H0 H1].
    destruct (Z.eq_dec k lo) as [->|Hne]; [exact H0|].
    apply (IH (lo + 1) H1). lia.
Qed.

Lemma month_in_range_era : all_from month_in_range (Z.to_nat 146097) 0 = true.
Proof. vm_compute. reflexivity. Qed.

Lemma civil_month_range (days : Z) :
  let '(_, m, _) := civil_from_days days in 1 <= m <= 12.
Proof.
  set (z := days + 719468).
  assert (Hdoe : 0 <= z - z / 146097 * 146097 < 146097).
  { pose proof (Z.mod_pos_bound z 146097 ltac:(lia)).
    rewrite (Z.mod_eq z 146097) in H by lia. lia. }
  assert (Hk : 0 <= z - z / 146097 * 146097 < 0 + Z.of_nat (Z.to_nat 146097))
    by (rewrite Z2Nat.id by lia; lia).
  pose proof (all_from_spec _ _ _ month_in_range_era _ Hk) as Hm.
  unfold month_in_range in Hm. apply andb_prop in Hm as [H1 H2].
  apply Z.leb_le in H1, H2.
  change (1 <= month_of_doe (z - z / 146097 * 146097) <= 12). lia.
Qed.

Lemma MakeDay_next_month (y m : Z) :
  1 <= m <= 12 ->
  MakeDay y ((m - 1) + 1) 1 =
  if m =? 12 then days_from_civil (y + 1) 1 1 else days_from_civil y (m + 1) 1.
Proof.
  intros Hm. unfold MakeDay. replace (m - 1 + 1) with m by lia.
  destruct (Z.eqb_spec m 12) as [->|Hne].
  - reflexivity.
  - rewrite Z.div_small by lia. rewrite Z.mod_small by lia.
    rewrite Z.add_0_r. reflexivity.
Qed.

(** C5 (amended). [getCurrentMonth] is the year-month of the host's
    local calendar at [now], read with the offset in force at [now];
    [getNextMonthStart] is local midnight of the first day of the next
    local month, converted back to an instant with the offset in force at
    that midnight, which across a daylight-saving change differs from the
    offset at [now].  When both offsets are 0 the results are the UTC
    year-month of [now] and the first instant of the next UTC month. *)
Theorem month_key_and_reset_local (tz : zone) (now : Z) :
  getCurrentMonth tz now = utc_month_key (now + tz now true) /\
  getNextMonthStart tz now =
    utc_next_month_start (now + tz now true)
    - tz (utc_next_month_start (now + tz now true)) false /\
  (tz now true = 0 -> tz (utc_next_month_start now) false = 0 ->
   getCurrentMonth tz now = utc_month_key now /\
   getNextMonthStart tz now = utc_next_month_start now).
Proof.
  assert (Hgen :
    getCurrentMonth tz now = utc_month_key (now + tz now true) /\
    getNextMonthStart tz now =
      utc_next_month_start (now + tz now true)
      - tz (utc_next_month_start (now + tz now true)) false).
  { unfold getCurrentMonth, getNextMonthStart, utc_month_key,
      utc_next_month_start, calendar_at.
    pose proof (civil_month_range ((now + tz now true) / msPerDay)) as Hr.
    destruct (civil_from_days ((now + tz now true) / msPerDay)) as [[y m] dd].
    split; [reflexivity|]. cbv zeta. rewrite (MakeDay_next_month y m Hr).
    reflexivity. }
  destruct Hgen as [H1 H2]. split; [exact H1|]. split; [exact H2|].
  intros Hnow Htarget. rewrite Hnow, Z.add_0_r in H1, H2.
  rewrite Htarget, Z.sub_0_r in H2. auto.
Qed.

Lemma month_key_and_reset_local_witness :
  (utc 1770724800000 true = 0 /\ utc (utc_next_month_start 1770724800000) false = 0) /\
  getCurrentMonth utc 1770724800000 = utc_month_key 1770724800000 /\
  getNextMonthStart utc 1770724800000 = utc_next_month_start 1770724800000.
Proof.
  split; [split; reflexivity|].
  apply (proj2 (proj2 (month_key_and_reset_local utc 1770724800000)));
    reflexivity.
Defined.

(** C5 counterexample.  On a host at UTC-5, at 2026-02-01T03:00Z the
    month key is "2026-01" (UTC: "2026-02") and the reset instant is
    2026-02-01T05:00Z, not 2026-03-01T00:00Z.  On a Europe/London host at
    2026-03-10T12:00Z the offset is 0 and the month key is the UTC one,
    but local midnight of 2026-04-01 is in summer time (offset +1h), so
    the reset instant is 2026-03-31T23:00Z, not 2026-04-01T00:00Z. *)
Lemma month_key_depends_on_host_offset :
  getCurrentMonth (fixed_offset (-18000000)) 1769914800000 = "2026-01"%string /\
  utc_month_key 1769914800000 = "2026-02"%string /\
  getNextMonthStart (fixed_offset (-18000000)) 1769914800000 = 1769922000000 /\
  utc_next_month_start 1769914800000 = 1772323200000 /\
  london_2026 1773144000000 true = 0 /\
  getCurrentMonth london_2026 1773144000000 = "2026-03"%string /\
  utc_month_key 1773144000000 = "2026-03"%string /\
  getNextMonthStart london_2026 1773144000000 = 1774998000000 /\
  utc_next_month_start 1773144000000 = 1775001600000.
Proof. vm_compute. repeat split. Qed.

(** ** C6: which usage row a request increments *)

Lemma row_count_increment_other (ty : ai_type) (tz : zone) (now uid uid' : Z) (M : string) (d : db) :
  (uid', M) <> (uid, getCurrentMonth tz now) ->
  row_count ty uid' M (usage_increment ty tz now uid d) = row_count ty uid' M d.
Proof.
  intros Hne. unfold usage_increment.
  rewrite <- (row_count_upsert ty uid' uid M (getCurrentMonth tz now) d).
  unfold incrementStmt.
  destruct (usage (upsertUsage uid (getCurrentMonth tz now) d) !! _); [|reflexivity].
  unfold row_count. simpl. rewrite lookup_insert_ne by congruence. reflexivity.
Qed.

(** C6 (amended). The month key is recomputed by each ledger call: when
    a request that passed its check completes at time [t], exactly the
    row (account, month current at [t]) gains one, and every other row,
    including the row its check read, is unchanged.  Indeed the whole
    database after the completion is the database before it with only the
    usage entry (account, month current at [t]) replaced: created if it
    was absent, and with exactly the counter of [ty] raised by one. *)
Theorem completion_increments_month_at_completion (ty : ai_type) (tz : zone) (t : Z)
    (user : user_row) (d : db) (uid' : Z) (M : string) :
  row_count ty uid' M (snd (req_step ty tz user t true RAwait d)) =
  row_count ty uid' M d
    + (if decide ((uid', M) = (u_id user, getCurrentMonth tz t)) then 1 else 0) /\
  snd (req_step ty tz user t true RAwait d) =
  set_usage (<[(u_id user, getCurrentMonth tz t) :=
                 bump ty (default zero_usage (usage d !! (u_id user, getCurrentMonth tz t)))]>
               (usage d)) d.
Proof.
  split.
  - simpl. destruct (decide _) as [Heq|Hne].
    + injection Heq as -> ->. apply row_count_increment_same. reflexivity.
    + rewrite row_count_increment_other by exact Hne. lia.
  - simpl. unfold usage_increment, incrementStmt.
    rewrite upsert_lookup. unfold upsertUsage.
    destruct (usage d !! (u_id user, getCurrentMonth tz t)); simpl.
    + reflexivity.
    + rewrite insert_insert_eq. reflexivity.
Qed.

(** C6 counterexample. A request checked at 2026-01-31T23:59:59Z reads
    the "2026-01" row; it completes at 2026-02-01T00:00:01Z and its
    increment lands in the "2026-02" row. *)
Lemma check_and_increment_split_across_months :
  getCurrentMonth utc jan31_late = "2026-01"%string /\
  getCurrentMonth utc feb1_early = "2026-02"%string /\
  fst (run_reqs aiRespond utc (user1 free) boundary_events [RStart] db_jan5) = [RDone] /\
  row_count aiRespond 1 "2026-01"
    (snd (run_reqs aiRespond utc (user1 free) boundary_events [RStart] db_jan5)) = 5 /\
  row_count aiRespond 1 "2026-02"
    (snd (run_reqs aiRespond utc (user1 free) boundary_events [RStart] db_jan5)) = 1.
Proof. vm_compute. repeat split. Qed.

(** ** C7: deleting a user cascades to everything it owns *)

(** C7. After deleting user [uid], no user row, saved response, client,
    usage row, password-reset token or link token with owner [uid]
    remains, and no message of a client that [uid] owned remains. *)
Theorem delete_user_cascades (uid : Z) (d : db) :
  Forall (fun u => u_id u <> uid) (users (delete_user uid d)) /\
  Forall (fun s => s_user_id s <> uid) (saved_responses (delete_user uid d)) /\
  Forall (fun c => c_user_id c <> uid) (clients (delete_user uid d)) /\
  Forall (fun m => forall c, In c (clients d) -> c_user_id c = uid -> m_client_id m <> c_id c)
    (messages (delete_user uid d)) /\
  (forall (k : Z * string) (r : usage_row), usage (delete_user uid d) !! k = Some r -> k.1 <> uid) /\
  Forall (fun r => t_user_id r <> uid) (password_reset_tokens (delete_user uid d)) /\
  Forall (fun r => t_user_id r <> uid) (telegram_link_tokens (delete_user uid d)).
Proof.
  unfold delete_user; simpl.
  repeat split; try (apply Forall_forall; intros x Hx;
                     apply list_elem_of_filter in Hx as [Hp _];
                     apply bool_decide_unpack in Hp; exact Hp).
  - apply Forall_forall. intros m Hm c Hc Hown Heq.
    apply list_elem_of_filter in Hm as [Hp _]. apply bool_decide_unpack in Hp.
    apply Hp. rewrite Heq. apply list_elem_of_fmap_2.
    apply list_elem_of_filter. split.
    + apply bool_decide_pack. exact Hown.
    + apply list_elem_of_In. exact Hc.
  - intros k r Hk. apply map_lookup_filter_Some in Hk as [_ Hk]. exact Hk.
Qed.

(** ** C8: how limit denials are reported *)

Lemma findOrCreateClient_throw_unchanged (uid : Z) (name msg : string) (d d' : db) :
  findOrCreateClient uid name d = (Throw msg, d') -> d' = d.
Proof.
  unfold findOrCreateClient.
  destruct (find _ (findByUser uid d)); [discriminate|].
  destruct (findById uid d) as [user|]; [|congruence].
  destruct (ceiling_le _ _); [congruence|].
  destruct (clients_create _ _ _ _); discriminate.
Qed.

(** C8 (amended). On the HTTP surface a limit denial is a normal 429
    answer whose body is a limit_exceeded record carrying current, limit
    and the reset instant ([checkClientLimit], [checkMessageLimit] and
    [checkAILimit] answer nothing else besides [next()] and, for
    messages, the 404 of a foreign client).  On the chat bridge the
    client ceiling is reported by an exception thrown in
    [findOrCreateClient]; the message handler catches it and replies
    with its text, leaving the store unchanged. *)
Theorem limit_denials_reporting :
  (forall (tz : zone) (now : Z) (user : user_row) (d : db),
     checkClientLimit tz now user d = Next \/
     exists e, checkClientLimit tz now user d = Respond 429 (BLimit e) /\
               le_error e = "limit_exceeded"%string /\
               le_resetDate e = getNextMonthStart tz now) /\
  (forall (tz : zone) (now : Z) (user : user_row) (cid : Z) (d : db),
     checkMessageLimit tz now user cid d = Next \/
     checkMessageLimit tz now user cid d = Respond 404 (BError "Client not found") \/
     exists e, checkMessageLimit tz now user cid d = Respond 429 (BLimit e) /\
               le_error e = "limit_exceeded"%string /\
               le_resetDate e = getNextMonthStart tz now) /\
  (forall (ty : ai_type) (tz : zone) (now : Z) (user : user_row) (d : db),
     fst (checkAILimit ty tz now user d) = Next \/
     exists e, fst (checkAILimit ty tz now user d) = Respond 429 (BLimit e) /\
               le_error e = "limit_exceeded"%string /\
               le_resetDate e = getNextMonthStart tz now) /\
  (forall (uid : Z) (rawName clientMessage msg : string) (d d' : db),
     findOrCreateClient uid (trim rawName) d = (Throw msg, d') ->
     bridge_log_message uid rawName clientMessage d = (Sent msg, d)).
Proof.
  split; [|split; [|split]].
  - intros tz now user d. unfold checkClientLimit.
    destruct (lim_clients _); [|left; reflexivity].
    destruct (_ <=? _); [right; eexists; repeat split|left; reflexivity].
  - intros tz now user cid d. unfold checkMessageLimit.
    destruct (lim_messagesPerClient _); [|left; reflexivity].
    destruct (findByIdAndUser _ _ _); [|right; left; reflexivity].
    destruct (_ <=? _); [right; right; eexists; repeat split|left; reflexivity].
  - intros ty tz now user d. unfold checkAILimit.
    destruct (ai_limit _ ty); [|left; reflexivity].
    destruct (usage_get _ _ _ _) as [r d'].
    destruct (_ <=? _); [right; eexists; repeat split|left; reflexivity].
  - intros uid rawName clientMessage msg d d' H.
    pose proof (findOrCreateClient_throw_unchanged _ _ _ _ _ H) as ->.
    unfold bridge_log_message. rewrite H. reflexivity.
Qed.

Lemma limit_denials_reporting_witness :
  findOrCreateClient 1 (trim "Zed") five_clients_db =
    (Throw "Client limit reached (5 clients on free plan).", five_clients_db) /\
  bridge_log_message 1 "Zed" "hello" five_clients_db =
    (Sent "Client limit reached (5 clients on free plan).", five_clients_db).
Proof.
  assert (H : findOrCreateClient 1 (trim "Zed") five_clients_db =
    (Throw "Client limit reached (5 clients on free plan).", five_clients_db))
    by (vm_compute; reflexivity).
  split; [exact H|].
  exact (proj2 (proj2 (proj2 limit_denials_reporting)) 1 "Zed" "hello" _ _ _ H).
Defined.

(** C8 counterexample. The bridge's client-limit check raises an
    exception: [findOrCreateClient] throws for a free account that
    already has 5 clients. *)
Lemma bridge_client_limit_throws :
  fst (findOrCreateClient 1 "Zed" five_clients_db) =
  Throw "Client limit reached (5 clients on free plan).".
Proof. vm_compute. reflexivity. Qed.

(** ** C9: case-insensitive client names *)

Lemma is_ws_lower (c : ascii) : is_ws (lower_ascii c) = is_ws c.
Proof. destruct c as [[] [] [] [] [] [] [] []]; reflexivity. Qed.

Lemma drop_ws_lower (l : list ascii) :
  drop_ws (List.map lower_ascii l) = List.map lower_ascii (drop_ws l).
Proof.
  induction l as [|c l IH]; simpl; [reflexivity|].
  rewrite is_ws_lower. destruct (is_ws c); [exact IH|reflexivity].
Qed.

Lemma toLowerCase_trim (s : string) : toLowerCase (trim s) = trim (toLowerCase s).
Proof.
  unfold toLowerCase, trim.
  rewrite !list_ascii_of_string_of_list_ascii.
  f_equal.
  rewrite (drop_ws_lower (list_ascii_of_string s)).
  rewrite <- (List.map_rev lower_ascii (drop_ws (list_ascii_of_string s))).
  rewrite drop_ws_lower, List.map_rev. reflexivity.
Qed.

Lemma findByUser_create (uid : Z) (name notes : string) (d : db) :
  findByUser uid (snd (clients_create uid name notes d)) =
  findByUser uid d ++ [fst (clients_create uid name notes d)].
Proof.
  unfold findByUser, clients_create. simpl. rewrite filter_app. f_equal.
  rewrite filter_cons_True; [reflexivity|]. apply bool_decide_pack. reflexivity.
Qed.

(** C9 (amended). The bridge's [findOrCreateClient] keeps an account's
    client names pairwise distinct ignoring case: it creates a client
    only when no existing name matches the lower-cased, trimmed input,
    and the created name is that input trimmed.  (HTTP
    [POST /api/clients] does not check names.) *)
Theorem findOrCreateClient_keeps_names_unique (uid : Z) (name : string) (d : db) :
  names_unique_ci uid d -> names_unique_ci uid (snd (findOrCreateClient uid name d)).
Proof.
  unfold names_unique_ci, findOrCreateClient. intros Hnd.
  destruct (find _ (findByUser uid d)) as [m|] eqn:Hf; [exact Hnd|].
  destruct (findById uid d) as [user|]; [|exact Hnd].
  destruct (ceiling_le _ _); [exact Hnd|].
  pose proof (findByUser_create uid (trim name) "" d) as Hc.
  destruct (clients_create uid (trim name) "" d) as [c d'] eqn:Ec. simpl in *.
  rewrite Hc. rewrite List.map_app. simpl.
  apply NoDup_app. split; [exact Hnd|]. split; [|apply NoDup_singleton].
  intros x Hx Hx'. apply list_elem_of_singleton in Hx'. subst x.
  apply list_elem_of_In, List.in_map_iff in Hx as [c' [Heq Hin]].
  apply (find_none _ _ Hf) in Hin. rewrite Heq in Hin.
  unfold clients_create in Ec. injection Ec as <- _. simpl in Hin.
  rewrite toLowerCase_trim, String.eqb_refl in Hin. discriminate.
Qed.

Lemma findOrCreateClient_keeps_names_unique_witness :
  names_unique_ci 1 four_clients_db /\
  List.length (findByUser 1 (snd (findOrCreateClient 1 " ZED " four_clients_db))) = 5%nat /\
  names_unique_ci 1 (snd (findOrCreateClient 1 " ZED " four_clients_db)).
Proof.
  assert (H : names_unique_ci 1 four_clients_db).
  { unfold names_unique_ci.
    apply (bool_decide_unpack _ (dec := NoDup_dec
      (List.map (fun c => toLowerCase (c_name c)) (findByUser 1 four_clients_db)))).
    vm_compute. exact I. }
  split; [exact H|]. split; [vm_compute; reflexivity|].
  exact (findOrCreateClient_keeps_names_unique 1 " ZED " _ H).
Defined.

(** C9 counterexample. [POST /api/clients] twice, with "Anna" and
    "anna", on a free account: both pass [checkClientLimit] and the
    account ends with two clients whose names are equal ignoring case. *)
Lemma http_post_clients_duplicate_names :
  let d1 := snd (post_clients utc feb10 (user1 free) "Anna" "" empty_db) in
  let d2 := snd (post_clients utc feb10 (user1 free) "anna" "" d1) in
  List.map c_name (findByUser 1 d2) = ["Anna"; "anna"]%string /\
  ~ names_unique_ci 1 d2.
Proof.
  simpl. split; [vm_compute; reflexivity|].
  unfold names_unique_ci. vm_compute. intros H.
  apply NoDup_cons in H as [H _]. apply H. left.
Qed.

(** ** C10: forgot-password does not reveal whether an email is registered *)

(** C10. When the token insert and the email send do not fail, the
    forgot-password answer is [200 {success: true}] both for an email
    that belongs to an account and for one that does not. *)
Theorem forgot_password_same_response (e tok : string) (now : Z)
    (resend_configured send_ok : bool) (d1 d2 : db) (user : user_row) :
  e <> EmptyString ->
  findByEmail (toLowerCase e) d1 = Some user ->
  findByEmail (toLowerCase e) d2 = None ->
  reset_tokens_create (u_id user) tok (now + 60 * 60 * 1000) now d1 <> None ->
  resend_configured = false \/ send_ok = true ->
  fst (forgot_password (Some e) tok now resend_configured send_ok d1) = (200, BSuccess) /\
  fst (forgot_password (Some e) tok now resend_configured send_ok d2) = (200, BSuccess).
Proof.
  intros Hne H1 H2 Hok Hsend.
  destruct e as [|a e]; [contradiction|].
  unfold forgot_password. rewrite H1, H2. split; [|reflexivity].
  destruct (reset_tokens_create _ _ _ _ _) as [d'|]; [|contradiction].
  destruct Hsend as [-> | ->]; [reflexivity|]. rewrite andb_false_r. reflexivity.
Qed.

Lemma forgot_password_same_response_witness :
  fst (forgot_password (Some "Ann@Example.com") "f00d" feb10 true true empty_db)
    = (200, BSuccess) /\
  fst (forgot_password (Some "Ann@Example.com") "f00d" feb10 true true (set_users [] empty_db))
    = (200, BSuccess).
Proof.
  apply (forgot_password_same_response "Ann@Example.com" "f00d" feb10 true true
           empty_db (set_users [] empty_db) (user1 free)).
  - discriminate.
  - vm_compute. reflexivity.
  - vm_compute. reflexivity.
  - vm_compute. discriminate.
  - right. reflexivity.
Defined.

(** * Further properties of the limits and the usage ledger *)

(** The AI check changes no counter: every row of every account and
    month reads the same before and after it (it may only add a zero row). *)
Theorem checkAILimit_counters_unchanged (ty ty' : ai_type) (tz : zone) (now uid : Z) (M : string)
    (user : user_row) (d : db) :
  row_count ty' uid M (snd (checkAILimit ty tz now user d)) = row_count ty' uid M d.
Proof.
  unfold checkAILimit. destruct (ai_limit _ ty); [|reflexivity].
  unfold usage_get. simpl. destruct (_ <=? _); simpl; apply row_count_upsert.
Qed.

Lemma usage_grows_refl (d : db) : usage_grows d d.
Proof. intros k r H. exists r. repeat split; auto; lia. Qed.

Lemma usage_grows_trans (d1 d2 d3 : db) :
  usage_grows d1 d2 -> usage_grows d2 d3 -> usage_grows d1 d3.
Proof.
  intros H12 H23 k r H.
  destruct (H12 k r H) as (r2 & Hr2 & ?&?&?).
  destruct (H23 k r2 Hr2) as (r3 & Hr3 & ?&?&?).
  exists r3. repeat split; auto; lia.
Qed.

Lemma upsert_grows (uid : Z) (m : string) (d : db) : usage_grows d (upsertUsage uid m d).
Proof.
  intros k r H. unfold upsertUsage.
  destruct (usage d !! (uid, m)) eqn:E.
  - exists r. repeat split; auto; lia.
  - unfold set_usage. cbn [usage].
    destruct (decide (k = (uid, m))) as [->|Hne]; [congruence|].
    rewrite lookup_insert_ne by congruence. exists r. repeat split; auto; lia.
Qed.

Lemma increment_grows (ty : ai_type) (uid : Z) (m : string) (d : db) :
  usage_grows d (incrementStmt ty uid m d).
Proof.
  intros k r H. unfold incrementStmt.
  destruct (usage d !! (uid, m)) as [r0|] eqn:E.
  - unfold set_usage. cbn [usage].
    destruct (decide (k = (uid, m))) as [->|Hne].
    + rewrite lookup_insert_eq. exists (bump ty r0).
      rewrite E in H. injection H as <-. destruct ty; simpl; repeat split; lia.
    + rewrite lookup_insert_ne by congruence. exists r. repeat split; auto; lia.
  - exists r. repeat split; auto; lia.
Qed.

(** The usage ledger only grows: [usage.get] and the three
    [usage.increment*] never delete a row nor lower a counter. *)
Theorem usage_ledger_monotone (ty : ai_type) (tz : zone) (now uid : Z) (d : db) :
  usage_grows d (snd (usage_get tz now uid d)) /\
  usage_grows d (usage_increment ty tz now uid d).
Proof.
  split.
  - apply upsert_grows.
  - unfold usage_increment. eapply usage_grows_trans; [apply upsert_grows|].
    apply increment_grows.
Qed.

Lemma req_step_grows (ty : ai_type) (tz : zone) (user : user_row) (now : Z) (ok : bool)
    (pc : req_pc) (d : db) :
  usage_grows d (snd (req_step ty tz user now ok pc d)).
Proof.
  destruct pc; simpl; try apply usage_grows_refl.
  - unfold checkAILimit. destruct (ai_limit _ ty); simpl; [|apply usage_grows_refl].
    destruct (_ <=? _); apply upsert_grows.
  - destruct ok; simpl; [|apply usage_grows_refl].
    unfold usage_increment. eapply usage_grows_trans; [apply upsert_grows|].
    apply increment_grows.
Qed.

(** Over any interleaving of metered requests of any accounts and AI
    endpoints (checks, provider successes and failures), no usage row
    disappears and no counter goes down. *)
Theorem run_mixed_usage_monotone (tz : zone) (evs : list event) (rs : list mreq) (d : db) :
  usage_grows d (snd (run_mixed tz evs rs d)).
Proof.
  revert rs d. induction evs as [|e evs IH]; intros rs d; simpl.
  - apply usage_grows_refl.
  - destruct (rs !! ev_req e) as [r|]; [|apply IH].
    pose proof (req_step_grows (mr_ty r) tz (mr_user r) (ev_time e) (ev_ok e) (mr_pc r) d) as Hs.
    destruct (req_step (mr_ty r) tz (mr_user r) (ev_time e) (ev_ok e) (mr_pc r) d) as [pc' d'].
    eapply usage_grows_trans; [exact Hs|]. apply IH.
Qed.

(** * Further properties of clients, messages, link tokens and accounts *)

Lemma countByUser_findByUser (uid : Z) (d : db) :
  countByUser uid d = Z.of_nat (length (findByUser uid d)).
Proof. reflexivity. Qed.

Lemma countByUser_create (uid : Z) (name notes : string) (d : db) :
  countByUser uid (snd (clients_create uid name notes d)) = countByUser uid d + 1.
Proof.
  rewrite !countByUser_findByUser, findByUser_create, length_app. simpl. lia.
Qed.

Lemma countByClient_create (cid cid' : Z) (s : sender) (text : string) (d : db) :
  countByClient cid' (messages_create cid s text d) =
  countByClient cid' d + (if bool_decide (cid = cid') then 1 else 0).
Proof.
  unfold countByClient, messages_create. cbn [messages].
  rewrite filter_app, length_app. case_bool_decide as Hc.
  - rewrite filter_cons_True by (apply bool_decide_spec; exact Hc). simpl. lia.
  - rewrite filter_cons_False by (rewrite bool_decide_spec; exact Hc). simpl. lia.
Qed.

Lemma find_app {A : Type} (f : A -> bool) (l l' : list A) :
  find f (l ++ l') = match find f l with Some x => Some x | None => find f l' end.
Proof. induction l as [|x l IH]; simpl; [reflexivity|]. destruct (f x); auto. Qed.

(** [POST /api/clients] keeps the number of clients an account owns
    within its plan ceiling: if the count is within the ceiling before
    the request, it is within it after. *)
Theorem post_clients_within_ceiling (tz : zone) (now : Z) (user : user_row) (name notes : string)
    (d : db) :
  within_ceiling (countByUser (u_id user) d) (lim_clients (PLAN_LIMITS (u_plan user))) ->
  within_ceiling (countByUser (u_id user) (snd (post_clients tz now user name notes d)))
    (lim_clients (PLAN_LIMITS (u_plan user))).
Proof.
  unfold post_clients, checkClientLimit.
  pose proof (countByUser_create (u_id user) name notes d) as Hc.
  destruct (clients_create (u_id user) name notes d) as [c d'] eqn:E. simpl in Hc.
  destruct (lim_clients _) as [l|]; simpl; [|trivial].
  intros Hw. destruct (l <=? countByUser (u_id user) d) eqn:Hle; simpl; [exact Hw|].
  apply Z.leb_gt in Hle. lia.
Qed.

Lemma post_clients_within_ceiling_witness :
  within_ceiling (countByUser (u_id (user1 free)) four_clients_db)
    (lim_clients (PLAN_LIMITS (u_plan (user1 free)))) /\
  within_ceiling (countByUser (u_id (user1 free))
                    (snd (post_clients utc feb10 (user1 free) "Eve" "" four_clients_db)))
    (lim_clients (PLAN_LIMITS (u_plan (user1 free)))).
Proof.
  assert (H : within_ceiling (countByUser (u_id (user1 free)) four_clients_db)
                (lim_clients (PLAN_LIMITS (u_plan (user1 free))))) by (vm_compute; congruence).
  split; [exact H|]. apply (post_clients_within_ceiling utc feb10 (user1 free) "Eve" "" four_clients_db H).
Defined.

(** The bridge's [findOrCreateClient] keeps the number of clients an
    existing account owns within its plan ceiling. *)
Theorem findOrCreateClient_within_ceiling (uid : Z) (u : user_row) (name : string) (d : db) :
  findById uid d = Some u ->
  within_ceiling (countByUser uid d) (lim_clients (PLAN_LIMITS (u_plan u))) ->
  within_ceiling (countByUser uid (snd (findOrCreateClient uid name d)))
    (lim_clients (PLAN_LIMITS (u_plan u))).
Proof.
  intros Hu Hw. unfold findOrCreateClient. cbv zeta.
  pose proof (countByUser_create uid (trim name) "" d) as Hc.
  destruct (clients_create uid (trim name) "" d) as [c d'] eqn:E. simpl in Hc.
  destruct (find _ (findByUser uid d)); [exact Hw|]. rewrite Hu.
  rewrite countByUser_findByUser in Hw, Hc.
  destruct (lim_clients _) as [l|]; simpl in Hw |- *; [|trivial].
  destruct (l <=? _) eqn:Hle; simpl; [rewrite countByUser_findByUser; exact Hw|].
  apply Z.leb_gt in Hle. rewrite !countByUser_findByUser in *. lia.
Qed.

(** A client created by [findOrCreateClient] is found again, unchanged
    and with [isNew] false, when the same name is sent a second time. *)
Theorem findOrCreateClient_idempotent (uid : Z) (name : string) (c : client_row) (d d' : db) :
  findOrCreateClient uid name d = (Ok (c, true), d') ->
  findOrCreateClient uid name d' = (Ok (c, false), d').
Proof.
  unfold findOrCreateClient. cbv zeta. intros H.
  destruct (find _ (findByUser uid d)) eqn:Hf; [discriminate|].
  destruct (findById uid d); [|discriminate].
  destruct (ceiling_le _ _); [discriminate|].
  pose proof (findByUser_create uid (trim name) "" d) as Hfu.
  destruct (clients_create uid (trim name) "" d) as [c0 d0] eqn:Ec.
  injection H as <- <-. simpl in Hfu.
  assert (Hn : c_name c0 = trim name).
  { unfold clients_create in Ec. injection Ec as <- _. reflexivity. }
  rewrite Hfu, find_app, Hf. simpl.
  rewrite Hn, toLowerCase_trim, String.eqb_refl. reflexivity.
Qed.

Lemma find_map_same {A : Type} (f : A -> bool) (g : A -> A) (l : list A) :
  (forall x, f (g x) = f x) -> find f (map g l) = option_map g (find f l).
Proof.
  intros Hg. induction l as [|x l IH]; simpl; [reflexivity|].
  rewrite Hg. destruct (f x); auto.
Qed.

Lemma find_filter_negb {A : Type} (f : A -> bool) (l : list A) :
  find f (filter (fun x => negb (f x)) l) = None.
Proof.
  induction l as [|x l IH]; [reflexivity|]. rewrite filter_cons.
  destruct (decide _) as [Hx|Hx]; simpl; [|exact IH].
  destruct (f x); [contradiction|exact IH].
Qed.

(** [PUT /api/clients/:id] on an owned client answers 200 and stores the
    new name and notes, keeping the stored value of each one that is
    missing or null ([??]). *)
Theorem put_client_applies_defaults (user : user_row) (cid : Z) (name notes : option string)
    (c : client_row) (d : db) :
  findByIdAndUser cid (u_id user) d = Some c ->
  fst (put_client user cid name notes d) = Respond 200 BSuccess /\
  findByIdAndUser cid (u_id user) (snd (put_client user cid name notes d)) =
    Some {| c_id := c_id c; c_user_id := c_user_id c;
            c_name := default (c_name c) name; c_notes := default (c_notes c) notes |}.
Proof.
  intros H. unfold put_client. rewrite H. split; [reflexivity|]. simpl.
  unfold findByIdAndUser, clients_update, set_clients in *. cbn [clients].
  rewrite find_map_same.
  - rewrite H. simpl. apply find_some in H as [_ Hc]. rewrite Hc. reflexivity.
  - intros x. destruct (bool_decide (c_id x = cid) && bool_decide (c_user_id x = u_id user)) eqn:E;
      simpl; exact E.
Qed.

(** [PUT /api/clients/:id] touches no message, changes no account's
    client count and leaves other accounts' clients as they were. *)
Theorem put_client_scope (user : user_row) (cid : Z) (name notes : option string) (d : db) :
  messages (snd (put_client user cid name notes d)) = messages d /\
  (forall uid, countByUser uid (snd (put_client user cid name notes d)) = countByUser uid d) /\
  (forall uid, uid <> u_id user ->
     findByUser uid (snd (put_client user cid name notes d)) = findByUser uid d).
Proof.
  unfold put_client. destruct (findByIdAndUser cid (u_id user) d) as [c|]; simpl;
    [|split; [reflexivity|split; reflexivity]].
  unfold clients_update, countByUser, findByUser, set_clients. cbn [clients messages].
  split; [reflexivity|]. split.
  - intros uid. f_equal. induction (clients d) as [|x l IH]; [reflexivity|]. simpl.
    rewrite !filter_cons.
    destruct (bool_decide (c_id x = cid) && bool_decide (c_user_id x = u_id user));
      simpl; destruct (decide _); simpl; rewrite ?IH; reflexivity.
  - intros uid Hne. induction (clients d) as [|x l IH]; [reflexivity|]. simpl.
    destruct (bool_decide (c_id x = cid) && bool_decide (c_user_id x = u_id user)) eqn:E;
      simpl; [|rewrite !filter_cons; destruct (decide _); rewrite ?IH; reflexivity].
    apply andb_prop in E as [_ E]. apply bool_decide_eq_true in E.
    rewrite !filter_cons_False; [exact IH| |]; simpl; rewrite bool_decide_spec; congruence.
Qed.

Lemma filter_gone_count (cid : Z) (gone : list Z) (ms : list message_row) :
  cid ∈ gone ->
  filter (fun m => bool_decide (m_client_id m = cid))
    (filter (fun m => bool_decide (m_client_id m ∉ gone)) ms) = [].
Proof.
  intros Hin. induction ms as [|m ms IH]; [reflexivity|].
  rewrite filter_cons.
  destruct (decide _) as [Hm|Hm]; [|exact IH].
  rewrite filter_cons_False; [exact IH|]. rewrite bool_decide_spec.
  apply bool_decide_spec in Hm. intros He. rewrite He in Hm. contradiction.
Qed.

(** [DELETE /api/clients/:id] on an owned client answers 200, removes
    the client and every message of it, and leaves other accounts'
    clients as they were. *)
Theorem delete_client_cascades (user : user_row) (cid : Z) (c : client_row) (d : db) :
  findByIdAndUser cid (u_id user) d = Some c ->
  fst (delete_client user cid d) = Respond 200 BSuccess /\
  findByIdAndUser cid (u_id user) (snd (delete_client user cid d)) = None /\
  countByClient cid (snd (delete_client user cid d)) = 0 /\
  (forall uid, uid <> u_id user ->
     findByUser uid (snd (delete_client user cid d)) = findByUser uid d).
Proof.
  intros H. unfold delete_client. rewrite H. simpl.
  unfold findByIdAndUser in H. apply find_some in H as [Hin Hc].
  split; [reflexivity|]. split; [|split].
  - unfold findByIdAndUser, clients_delete. cbn [clients]. apply find_filter_negb.
  - unfold countByClient, clients_delete. cbn [messages].
    rewrite filter_gone_count; [reflexivity|].
    pose proof Hc as Hid. apply andb_prop in Hid as [Hid _]. apply bool_decide_eq_true in Hid.
    subst cid. apply list_elem_of_In. apply in_map. apply list_elem_of_In.
    apply list_elem_of_filter. split.
    + simpl. rewrite Hc. exact I.
    + apply list_elem_of_In. exact Hin.
  - intros uid Hne. unfold findByUser, clients_delete. cbn [clients]. clear Hin.
    induction (clients d) as [|x l IH]; [reflexivity|].
    rewrite filter_cons.
    destruct (decide _) as [Hx|Hx]; [rewrite !filter_cons; destruct (decide _); rewrite ?IH; reflexivity|].
    rewrite filter_cons_False; [exact IH|].
    rewrite bool_decide_spec. intros Hu.
    apply Hx. destruct (bool_decide (c_id x = cid)); simpl; [|exact I].
    rewrite bool_decide_false by congruence. exact I.
Qed.

(** [POST /api/messages] keeps every client's message count within the
    per-client ceiling of the account's plan. *)
Theorem post_messages_within_ceiling (tz : zone) (now : Z) (user : user_row) (clientId cid : Z)
    (from : sender) (text : string) (d : db) :
  within_ceiling (countByClient cid d) (lim_messagesPerClient (PLAN_LIMITS (u_plan user))) ->
  within_ceiling (countByClient cid (snd (post_messages tz now user clientId from text d)))
    (lim_messagesPerClient (PLAN_LIMITS (u_plan user))).
Proof.
  unfold post_messages, checkMessageLimit.
  destruct (lim_messagesPerClient _) as [l|]; simpl; [|trivial].
  intros Hw. destruct (findByIdAndUser clientId (u_id user) d); simpl; [|exact Hw].
  destruct (l <=? countByClient clientId d) eqn:Hle; simpl; [exact Hw|].
  apply Z.leb_gt in Hle. rewrite countByClient_create.
  case_bool_decide as Hc; [subst cid; lia|lia].
Qed.

(** A client id the account does not own is answered 404 "Client not
    found" by [POST /api/messages], [PUT] and [DELETE /api/clients/:id],
    and the store is left unchanged. *)
Theorem foreign_client_not_found (tz : zone) (now : Z) (user : user_row) (cid : Z) (from : sender)
    (text : string) (name notes : option string) (d : db) :
  findByIdAndUser cid (u_id user) d = None ->
  post_messages tz now user cid from text d = (Respond 404 (BError "Client not found"), d) /\
  put_client user cid name notes d = (Respond 404 (BError "Client not found"), d) /\
  delete_client user cid d = (Respond 404 (BError "Client not found"), d).
Proof.
  intros H. unfold post_messages, checkMessageLimit, put_client, delete_client. rewrite H.
  split; [|split; reflexivity].
  destruct (lim_messagesPerClient _); rewrite ?H; reflexivity.
Qed.

(** The bridge's [@Name: text] handler appends one message to the
    resolved client whatever that client's message count: the
    per-client ceiling of the HTTP route is not checked there. *)
Theorem bridge_log_message_appends (uid : Z) (rawName msg : string) (c : client_row)
    (isNew : bool) (d : db) :
  fst (findOrCreateClient uid (trim rawName) d) = Ok (c, isNew) ->
  countByClient (c_id c) (snd (bridge_log_message uid rawName msg d)) =
  countByClient (c_id c) (snd (findOrCreateClient uid (trim rawName) d)) + 1.
Proof.
  unfold bridge_log_message.
  destruct (findOrCreateClient uid (trim rawName) d) as [[[c' b]|m] d']; simpl;
    [|discriminate].
  intros [= -> ->]. rewrite countByClient_create, bool_decide_true by reflexivity. reflexivity.
Qed.

Lemma findOrCreateClient_within_ceiling_witness :
  findById 1 four_clients_db = Some (user1 free) /\
  within_ceiling (countByUser 1 four_clients_db) (lim_clients (PLAN_LIMITS (u_plan (user1 free)))) /\
  within_ceiling (countByUser 1 (snd (findOrCreateClient 1 "Eve" four_clients_db)))
    (lim_clients (PLAN_LIMITS (u_plan (user1 free)))).
Proof.
  assert (Hu : findById 1 four_clients_db = Some (user1 free)) by reflexivity.
  assert (Hw : within_ceiling (countByUser 1 four_clients_db)
                 (lim_clients (PLAN_LIMITS (u_plan (user1 free))))) by (vm_compute; congruence).
  split; [exact Hu|]. split; [exact Hw|].
  exact (findOrCreateClient_within_ceiling 1 (user1 free) "Eve" four_clients_db Hu Hw).
Defined.

Lemma findOrCreateClient_idempotent_witness :
  findOrCreateClient 1 " Bob " empty_db =
    (Ok (fst (clients_create 1 "Bob" "" empty_db), true), snd (clients_create 1 "Bob" "" empty_db)) /\
  findOrCreateClient 1 " Bob " (snd (clients_create 1 "Bob" "" empty_db)) =
    (Ok (fst (clients_create 1 "Bob" "" empty_db), false), snd (clients_create 1 "Bob" "" empty_db)).
Proof.
  assert (H : findOrCreateClient 1 " Bob " empty_db =
    (Ok (fst (clients_create 1 "Bob" "" empty_db), true), snd (clients_create 1 "Bob" "" empty_db)))
    by (vm_compute; reflexivity).
  split; [exact H|]. exact (findOrCreateClient_idempotent _ _ _ _ _ H).
Defined.

Lemma put_client_applies_defaults_witness :
  findByIdAndUser 1 1 (client_msgs_db 2) = Some (mk_client 1 "Bob") /\
  fst (put_client (user1 free) 1 None (Some "VIP") (client_msgs_db 2)) = Respond 200 BSuccess /\
  findByIdAndUser 1 1 (snd (put_client (user1 free) 1 None (Some "VIP") (client_msgs_db 2))) =
    Some {| c_id := 1; c_user_id := 1; c_name := "Bob"; c_notes := "VIP" |}.
Proof.
  assert (H : findByIdAndUser 1 (u_id (user1 free)) (client_msgs_db 2) = Some (mk_client 1 "Bob"))
    by reflexivity.
  split; [exact H|].
  exact (put_client_applies_defaults (user1 free) 1 None (Some "VIP") (mk_client 1 "Bob") _ H).
Defined.

Lemma delete_client_cascades_witness :
  findByIdAndUser 1 1 (client_msgs_db 3) = Some (mk_client 1 "Bob") /\
  countByClient 1 (client_msgs_db 3) = 3 /\
  fst (delete_client (user1 free) 1 (client_msgs_db 3)) = Respond 200 BSuccess /\
  findByIdAndUser 1 1 (snd (delete_client (user1 free) 1 (client_msgs_db 3))) = None /\
  countByClient 1 (snd (delete_client (user1 free) 1 (client_msgs_db 3))) = 0 /\
  (forall uid, uid <> 1 ->
     findByUser uid (snd (delete_client (user1 free) 1 (client_msgs_db 3))) =
     findByUser uid (client_msgs_db 3)).
Proof.
  assert (H : findByIdAndUser 1 (u_id (user1 free)) (client_msgs_db 3) = Some (mk_client 1 "Bob"))
    by reflexivity.
  split; [exact H|]. split; [vm_compute; reflexivity|].
  exact (delete_client_cascades (user1 free) 1 (mk_client 1 "Bob") _ H).
Defined.

Lemma post_messages_within_ceiling_witness :
  within_ceiling (countByClient 1 (client_msgs_db 49))
    (lim_messagesPerClient (PLAN_LIMITS (u_plan (user1 free)))) /\
  countByClient 1 (snd (post_messages utc feb10 (user1 free) 1 sender_me "ok" (client_msgs_db 49))) = 50 /\
  within_ceiling
    (countByClient 1 (snd (post_messages utc feb10 (user1 free) 1 sender_me "ok" (client_msgs_db 49))))
    (lim_messagesPerClient (PLAN_LIMITS (u_plan (user1 free)))).
Proof.
  assert (Hw : within_ceiling (countByClient 1 (client_msgs_db 49))
                 (lim_messagesPerClient (PLAN_LIMITS (u_plan (user1 free)))))
    by (vm_compute; congruence).
  split; [exact Hw|]. split; [vm_compute; reflexivity|].
  exact (post_messages_within_ceiling utc feb10 (user1 free) 1 1 sender_me "ok" _ Hw).
Defined.

Lemma foreign_client_not_found_witness :
  findByIdAndUser 1 2 (client_msgs_db 1) = None /\
  post_messages utc feb10 user2 1 sender_me "x" (client_msgs_db 1) =
    (Respond 404 (BError "Client not found"), client_msgs_db 1) /\
  put_client user2 1 (Some "Mine") None (client_msgs_db 1) =
    (Respond 404 (BError "Client not found"), client_msgs_db 1) /\
  delete_client user2 1 (client_msgs_db 1) =
    (Respond 404 (BError "Client not found"), client_msgs_db 1).
Proof.
  assert (H : findByIdAndUser 1 (u_id user2) (client_msgs_db 1) = None) by reflexivity.
  split; [exact H|].
  exact (foreign_client_not_found utc feb10 user2 1 sender_me "x" (Some "Mine") None _ H).
Defined.

(** The bridge logs a 51st message for a free-plan client although the
    HTTP route stops at 50. *)
Lemma bridge_log_message_appends_witness :
  fst (findOrCreateClient 1 (trim "bob") (client_msgs_db 50)) = Ok (mk_client 1 "Bob", false) /\
  countByClient 1 (client_msgs_db 50) = 50 /\
  countByClient 1 (snd (bridge_log_message 1 "bob" "hello" (client_msgs_db 50))) = 51.
Proof.
  assert (H : fst (findOrCreateClient 1 (trim "bob") (client_msgs_db 50)) =
              Ok (mk_client 1 "Bob", false)) by (vm_compute; reflexivity).
  split; [exact H|]. split; [vm_compute; reflexivity|].
  pose proof (bridge_log_message_appends 1 "bob" "hello" (mk_client 1 "Bob") false _ H) as Hb.
  change (c_id (mk_client 1 "Bob")) with 1 in Hb. rewrite Hb.
  vm_compute. reflexivity.
Defined.

(** The [/start] handler changes the store only when it answers
    Connected; Welcome, AlreadyConnected, Invalid and a failed link leave
    it as it was (the token stays unused). *)
Theorem start_handler_writes_only_on_connect (chatId : Z) (username : string)
    (tokenArg : option string) (now : Z) (d : db) :
  match fst (start_handler chatId username tokenArg now d) with
  | ReplyConnected _ => True
  | _ => snd (start_handler chatId username tokenArg now d) = d
  end.
Proof.
  unfold start_handler. destruct tokenArg as [[|a s]|].
  - destruct (findByTelegramChatId chatId d); reflexivity.
  - destruct (findByToken _ _ now) as [lt|]; [|reflexivity].
    destruct (setTelegramChat _ _ _ _); exact I || reflexivity.
  - destruct (findByTelegramChatId chatId d); reflexivity.
Qed.

Lemma setTelegramChat_find (uid chatId : Z) (username : string) (us us' : list user_row) :
  setTelegramChat uid chatId username us = Some us' ->
  (exists u, In u us /\ u_id u = uid) ->
  exists u, find (fun u => bool_decide (u_telegram_chat_id u = Some chatId)) us' = Some u /\
            u_id u = uid.
Proof.
  revert us'. induction us as [|x l IH]; intros us' Hs [u [Hin Hu]]; [destruct Hin|].
  unfold setTelegramChat in Hs, IH. simpl in Hs.
  destruct (negb (u_id x =? uid) && bool_decide (u_telegram_chat_id x = Some chatId)) eqn:E1;
    simpl in Hs; [discriminate|].
  destruct (existsb _ l) eqn:E2; [discriminate|]. injection Hs as <-.
  simpl. destruct (u_id x =? uid) eqn:E3.
  - simpl. rewrite bool_decide_true by reflexivity. eexists. split; [reflexivity|].
    simpl. apply Z.eqb_eq. exact E3.
  - simpl in E1. rewrite E1. apply IH; [reflexivity|].
    destruct Hin as [<-|Hin]; [apply Z.eqb_neq in E3; contradiction|].
    exists u. auto.
Qed.

(** After [/start] answers Connected for an existing account, the chat
    resolves to that account. *)
Theorem start_connected_links_chat (chatId : Z) (username : string) (tokenArg : option string)
    (now uid : Z) (d : db) :
  fst (start_handler chatId username tokenArg now d) = ReplyConnected uid ->
  (exists u, In u (users d) /\ u_id u = uid) ->
  exists u, findByTelegramChatId chatId (snd (start_handler chatId username tokenArg now d)) = Some u /\
            u_id u = uid.
Proof.
  unfold start_handler. destruct tokenArg as [[|a s]|].
  - destruct (findByTelegramChatId chatId d); discriminate.
  - destruct (findByToken _ _ now) as [lt|]; [|discriminate].
    destruct (setTelegramChat _ _ _ _) as [us|] eqn:Hs; [|discriminate].
    simpl. intros [= <-] Hex. unfold findByTelegramChatId, set_users. cbn [users].
    exact (setTelegramChat_find _ _ _ _ _ Hs Hex).
  - destruct (findByTelegramChatId chatId d); discriminate.
Qed.

(** After [clearTelegramChat uid] no chat resolves to account [uid]. *)
Theorem clearTelegramChat_unlinks (uid chatId : Z) (d : db) :
  match findByTelegramChatId chatId (clearTelegramChat uid d) with
  | Some u => u_id u <> uid
  | None => True
  end.
Proof.
  unfold findByTelegramChatId, clearTelegramChat, set_users. cbn [users].
  induction (users d) as [|x l IH]; simpl; [exact I|].
  destruct (u_id x =? uid) eqn:E; simpl.
  - exact IH.
  - destruct (bool_decide _); [|exact IH]. apply Z.eqb_neq. exact E.
Qed.

Lemma find_none_of_existsb (f g : token_row -> bool) (l : list token_row) :
  existsb g l = false -> (forall x, f x = true -> g x = true) -> find f l = None.
Proof.
  intros Hx Hfg. induction l as [|x l IH]; simpl in *; [reflexivity|].
  apply orb_false_iff in Hx as [Hx1 Hx2].
  destruct (f x) eqn:E; [rewrite (Hfg x E) in Hx1; discriminate|]. auto.
Qed.

Lemma findByToken_inserted (tbl : list token_row) (i uid exp t : Z) (tok : string) :
  existsb (fun r => String.eqb (t_token r) tok) tbl = false -> t <= exp ->
  findByToken (tbl ++ [{| t_id := i; t_user_id := uid; t_token := tok; t_expires_at := exp;
                          t_used := 0 |}]) tok t =
  Some {| t_id := i; t_user_id := uid; t_token := tok; t_expires_at := exp; t_used := 0 |}.
Proof.
  intros Hx Ht. unfold findByToken. rewrite find_app.
  rewrite (find_none_of_existsb _ _ _ Hx).
  - simpl. rewrite String.eqb_refl. simpl.
    destruct (exp <? t) eqn:E; [apply Z.ltb_lt in E; lia|reflexivity].
  - intros x Hf. apply andb_prop in Hf as [Hf _]. exact Hf.
Qed.

(** A link token issued by [POST /api/telegram/connect] at [now] is
    redeemable for the issuing account at any time up to [now] plus
    15 minutes, and carries that expiry. *)
Theorem telegram_connect_redeemable (uid : Z) (tok : string) (now t : Z) (d d' : db) :
  telegram_connect uid tok now d = Some d' ->
  t <= now + LINK_TOKEN_TTL ->
  exists r, findByToken (telegram_link_tokens d') tok t = Some r /\ t_user_id r = uid /\
            t_expires_at r = now + LINK_TOKEN_TTL.
Proof.
  unfold telegram_connect. destruct (existsb _ _) eqn:E; [discriminate|].
  intros [= <-] Ht. unfold set_link_tokens. cbn [telegram_link_tokens].
  rewrite findByToken_inserted by assumption. eexists. repeat split.
Qed.

Lemma find_filter_keep {A : Type} (f keep : A -> bool) (l : list A) (r : A) :
  find f l = Some r -> keep r = true -> find f (filter (fun x => keep x) l) = Some r.
Proof.
  intros Hf Hk. induction l as [|x l IH]; [discriminate|]. simpl in Hf.
  rewrite filter_cons. destruct (f x) eqn:E.
  - injection Hf as <-. rewrite decide_True by (rewrite Hk; exact I). simpl. rewrite E. reflexivity.
  - destruct (decide _); simpl; [rewrite E|]; auto.
Qed.

Lemma findByToken_after_cleanup (tbl : list token_row) (tok : string) (now : Z)
    (r : token_row) :
  findByToken tbl tok now = Some r -> findByToken (deleteExpiredTokens tbl now) tok now = Some r.
Proof.
  intros H. pose proof (findByToken_Some _ _ _ _ H) as (_ & _ & Hu & Hexp).
  unfold findByToken in *. destruct (find _ tbl) as [r0|] eqn:E; [|discriminate].
  destruct (t_expires_at r0 <? now) eqn:Hx; [discriminate|]. injection H as <-.
  unfold deleteExpiredTokens. rewrite (find_filter_keep _ _ _ r0 E); [rewrite Hx; reflexivity|].
  unfold sqlite_expired. rewrite Hu. simpl.
  assert (now / msPerDay <= t_expires_at r0 / msPerDay) by (apply Z.div_le_mono; [reflexivity|lia]).
  destruct (t_expires_at r0 / msPerDay <? now / msPerDay) eqn:Hd; [apply Z.ltb_lt in Hd; lia|].
  reflexivity.
Qed.

(** The clean-up [DELETE ... WHERE expires_at < datetime('now') OR
    used = 1] never removes a token that is redeemable at that time. *)
Theorem deleteExpiredTokens_keeps_redeemable (tbl : list token_row) (tok : string) (now : Z)
    (r : token_row) :
  findByToken tbl tok now = Some r -> findByToken (deleteExpiredTokens tbl now) tok now = Some r.
Proof. exact (findByToken_after_cleanup tbl tok now r). Qed.

(** Issuing a new link token keeps every token that was redeemable at
    that time redeemable. *)
Theorem telegram_connect_keeps_redeemable (uid : Z) (tok t : string) (now : Z) (r : token_row)
    (d d' : db) :
  findByToken (telegram_link_tokens d) t now = Some r ->
  telegram_connect uid tok now d = Some d' ->
  findByToken (telegram_link_tokens d') t now = Some r.
Proof.
  intros Hr. unfold telegram_connect. destruct (existsb _ _); [discriminate|].
  intros [= <-]. unfold set_link_tokens. cbn [telegram_link_tokens].
  apply (findByToken_after_cleanup _ _ now) in Hr.
  unfold findByToken in *. rewrite find_app.
  destruct (find _ (deleteExpiredTokens _ now)); [exact Hr|discriminate].
Qed.

(** Login answers the same 401 "Invalid email or password" for an
    unknown email and for a known email with a wrong password. *)
Theorem login_failure_indistinguishable (compare : string -> string -> bool)
    (e1 p1 e2 p2 : string) (u : user_row) (d : db) (pw : gmap Z string) :
  e1 <> "" -> p1 <> "" -> e2 <> "" -> p2 <> "" ->
  findByEmail (toLowerCase e1) d = None ->
  findByEmail (toLowerCase e2) d = Some u ->
  compare p2 (default "" (pw !! u_id u)) = false ->
  login compare (Some e1) (Some p1) d pw = (401, AError "Invalid email or password") /\
  login compare (Some e2) (Some p2) d pw = (401, AError "Invalid email or password").
Proof.
  intros He1 Hp1 He2 Hp2 H1 H2 Hc. unfold login.
  apply String.eqb_neq in He1, Hp1, He2, Hp2. rewrite He1, Hp1, He2, Hp2. simpl.
  rewrite H1, H2, Hc. split; reflexivity.
Qed.

Lemma find_id_fresh (l : list user_row) (n : Z) :
  (forall v, In v l -> u_id v < n) -> find (fun u => u_id u =? n) l = None.
Proof.
  intros H. induction l as [|x l IH]; simpl; [reflexivity|].
  destruct (u_id x =? n) eqn:E.
  - apply Z.eqb_eq in E. specialize (H x (or_introl eq_refl)). lia.
  - apply IH. intros v Hv. apply H. right. exact Hv.
Qed.

(** A successful signup creates a free-plan user with the lower-cased
    email, and logging in with that password and the email in any case
    then succeeds with the same user (user ids below [next_id]). *)
Theorem signup_then_login (compare : string -> string -> bool) (e e' p : string)
    (name : option string) (hash : string) (u : user_row) (d d' : db)
    (pw pw' : gmap Z string) :
  (forall v, In v (users d) -> u_id v < next_id d) ->
  signup (Some e) (Some p) name hash d pw = ((201, AUser u), (d', pw')) ->
  compare p hash = true ->
  e' <> "" -> toLowerCase e' = toLowerCase e ->
  u_email u = toLowerCase e /\ u_plan u = free /\
  login compare (Some e') (Some p) d' pw' = (200, AUser u).
Proof.
  intros Hfresh Hs Hc He' Hlow. unfold signup in Hs.
  destruct (String.eqb e "" || String.eqb p "") eqn:Hne; [discriminate|].
  apply orb_false_iff in Hne as [_ Hp].
  destruct (String.length p <? 8)%nat; [discriminate|].
  destruct (findByEmail (toLowerCase e) d) eqn:Hf; [discriminate|].
  unfold users_create in Hs. destruct (existsb _ _); [discriminate|].
  unfold findById in Hs. cbn [users] in Hs. rewrite find_app, find_id_fresh in Hs by exact Hfresh.
  simpl in Hs. rewrite Z.eqb_refl in Hs. injection Hs as <- <- <-.
  split; [reflexivity|]. split; [reflexivity|].
  unfold login. apply String.eqb_neq in He'. rewrite He', Hp. simpl.
  unfold findByEmail in *. cbn [users]. rewrite Hlow, find_app, Hf. simpl.
  rewrite String.eqb_refl. simpl. rewrite lookup_insert_eq. simpl. rewrite Hc. reflexivity.
Qed.

(** Signup keeps the emails of the users table pairwise distinct. *)
Theorem signup_keeps_emails_unique (email password name : option string) (hash : string)
    (d : db) (pw : gmap Z string) :
  NoDup (map u_email (users d)) ->
  NoDup (map u_email (users (fst (snd (signup email password name hash d pw))))).
Proof.
  intros Hnd. unfold signup.
  destruct email as [e|]; [|exact Hnd]. destruct password as [p|]; [|exact Hnd].
  destruct (_ || _); [exact Hnd|]. destruct (_ <? _)%nat; [exact Hnd|].
  destruct (findByEmail _ d); [exact Hnd|].
  destruct (users_create _ _ _ _ d pw) as [[[uid d'] pw']|] eqn:Hc; [|exact Hnd].
  assert (Hu : NoDup (map u_email (users d'))).
  { unfold users_create in Hc. destruct (existsb _ _) eqn:Hx; [discriminate|].
    injection Hc as _ <- _. cbn [users]. rewrite map_app. simpl.
    apply NoDup_app. split; [exact Hnd|]. split; [|apply NoDup_singleton].
    intros x Hx1 Hx2. apply list_elem_of_singleton in Hx2. subst x.
    apply list_elem_of_In, in_map_iff in Hx1 as [v [Hv Hin]].
    assert (Hb : existsb (fun u => String.eqb (u_email u) (toLowerCase e)) (users d) = true).
    { apply existsb_exists. exists v. split; [exact Hin|]. rewrite Hv. apply String.eqb_refl. }
    congruence. }
  destruct (findById uid d'); exact Hu.
Qed.

(** Round trip: after forgot-password answers 200 for a registered
    email, the token it stored resets that user's password within the
    hour, and login with the new password then succeeds. *)
Theorem forgot_then_reset_then_login (compare : string -> string -> bool) (e tok p h : string)
    (now t : Z) (rc ok : bool) (u : user_row) (d d1 : db) (pw : gmap Z string) :
  findByEmail (toLowerCase e) d = Some u ->
  forgot_password (Some e) tok now rc ok d = ((200, BSuccess), d1) ->
  tok <> "" -> p <> "" -> (8 <= String.length p)%nat ->
  t <= now + 60 * 60 * 1000 ->
  compare p h = true ->
  exists d2,
    reset_password (Some tok) (Some p) t h d1 pw = ((200, ASuccess), (d2, <[u_id u := h]> pw)) /\
    login compare (Some e) (Some p) d2 (<[u_id u := h]> pw) = (200, AUser u).
Proof.
  intros Hu Hf Htok Hp Hlen Ht Hc.
  unfold forgot_password in Hf. destruct e as [|a e']; [discriminate|].
  rewrite Hu in Hf. unfold reset_tokens_create in Hf.
  destruct (existsb _ _) eqn:Hx; [discriminate|].
  destruct (rc && negb ok); [discriminate|]. injection Hf as <-.
  pose proof Hu as Hin. unfold findByEmail in Hin. apply find_some in Hin as [Hin _].
  destruct (find (fun v => u_id v =? u_id u) (users d)) as [v|] eqn:Hv.
  2:{ exfalso. apply find_none with (x := u) in Hv; [|exact Hin]. rewrite Z.eqb_refl in Hv. discriminate. }
  pose proof Hv as Hvid. apply find_some in Hvid as [_ Hvid]. apply Z.eqb_eq in Hvid.
  eexists. split.
  - unfold reset_password. apply String.eqb_neq in Htok, Hp. rewrite Htok, Hp. simpl.
    destruct (String.length p <? 8)%nat eqn:Hl; [apply Nat.ltb_lt in Hl; lia|].
    unfold set_reset_tokens at 1. cbn [password_reset_tokens].
    rewrite findByToken_inserted by (exact Hx || lia). simpl.
    unfold findById. simpl. rewrite Hv, Hvid. reflexivity.
  - unfold login. apply String.eqb_neq in Hp. rewrite Hp. simpl.
    unfold findByEmail in *. simpl. rewrite Hu. simpl. rewrite lookup_insert_eq. simpl.
    rewrite Hc. reflexivity.
Qed.

Lemma start_connected_links_chat_witness :
  fst (start_handler 42 "ann" (Some "tok1") feb10 (db_link (feb10 + LINK_TOKEN_TTL) 0)) =
    ReplyConnected 1 /\
  exists u, findByTelegramChatId 42
              (snd (start_handler 42 "ann" (Some "tok1") feb10 (db_link (feb10 + LINK_TOKEN_TTL) 0)))
            = Some u /\ u_id u = 1.
Proof.
  assert (H : fst (start_handler 42 "ann" (Some "tok1") feb10 (db_link (feb10 + LINK_TOKEN_TTL) 0)) =
              ReplyConnected 1) by (vm_compute; reflexivity).
  split; [exact H|]. apply (start_connected_links_chat _ _ _ _ _ _ H).
  exists (user1 free). split; [left; reflexivity|reflexivity].
Defined.

Lemma telegram_connect_redeemable_witness :
  telegram_connect 1 "tok2" feb10 (db_link feb10 1) =
    Some (default empty_db (telegram_connect 1 "tok2" feb10 (db_link feb10 1))) /\
  exists r, findByToken (telegram_link_tokens
                           (default empty_db (telegram_connect 1 "tok2" feb10 (db_link feb10 1))))
              "tok2" (feb10 + LINK_TOKEN_TTL) = Some r /\ t_user_id r = 1 /\
            t_expires_at r = feb10 + LINK_TOKEN_TTL.
Proof.
  assert (H : telegram_connect 1 "tok2" feb10 (db_link feb10 1) =
              Some (default empty_db (telegram_connect 1 "tok2" feb10 (db_link feb10 1))))
    by (vm_compute; reflexivity).
  split; [exact H|]. apply (telegram_connect_redeemable 1 "tok2" feb10 _ _ _ H). lia.
Defined.

Lemma deleteExpiredTokens_keeps_redeemable_witness :
  findByToken [reset_row "old" (feb10 - 2 * msPerDay) 0; reset_row "rt1" feb10 1;
               reset_row "rt1" (feb10 + 1000) 0] "rt1" feb10 = Some (reset_row "rt1" (feb10 + 1000) 0) /\
  findByToken (deleteExpiredTokens [reset_row "old" (feb10 - 2 * msPerDay) 0; reset_row "rt1" feb10 1;
               reset_row "rt1" (feb10 + 1000) 0] feb10) "rt1" feb10 =
    Some (reset_row "rt1" (feb10 + 1000) 0).
Proof.
  assert (H : findByToken [reset_row "old" (feb10 - 2 * msPerDay) 0; reset_row "rt1" feb10 1;
               reset_row "rt1" (feb10 + 1000) 0] "rt1" feb10 = Some (reset_row "rt1" (feb10 + 1000) 0))
    by (vm_compute; reflexivity).
  split; [exact H|]. exact (deleteExpiredTokens_keeps_redeemable _ _ _ _ H).
Defined.

Lemma telegram_connect_keeps_redeemable_witness :
  findByToken (telegram_link_tokens (db_link (feb10 + 1000) 0)) "tok1" feb10 =
    Some (link_row (feb10 + 1000) 0) /\
  telegram_connect 2 "tok2" feb10 (db_link (feb10 + 1000) 0) =
    Some (default empty_db (telegram_connect 2 "tok2" feb10 (db_link (feb10 + 1000) 0))) /\
  findByToken (telegram_link_tokens
                 (default empty_db (telegram_connect 2 "tok2" feb10 (db_link (feb10 + 1000) 0))))
    "tok1" feb10 = Some (link_row (feb10 + 1000) 0).
Proof.
  assert (H1 : findByToken (telegram_link_tokens (db_link (feb10 + 1000) 0)) "tok1" feb10 =
               Some (link_row (feb10 + 1000) 0)) by (vm_compute; reflexivity).
  assert (H2 : telegram_connect 2 "tok2" feb10 (db_link (feb10 + 1000) 0) =
    Some (default empty_db (telegram_connect 2 "tok2" feb10 (db_link (feb10 + 1000) 0))))
    by (vm_compute; reflexivity).
  split; [exact H1|]. split; [exact H2|].
  exact (telegram_connect_keeps_redeemable 2 "tok2" "tok1" feb10 _ _ _ H1 H2).
Defined.

Lemma login_failure_indistinguishable_witness :
  login String.eqb (Some "nobody@example.com") (Some "secret123") empty_db ann_pw =
    (401, AError "Invalid email or password") /\
  login String.eqb (Some "ANN@example.com") (Some "wrongpass") empty_db ann_pw =
    (401, AError "Invalid email or password").
Proof.
  apply (login_failure_indistinguishable String.eqb _ _ _ _ (user1 free));
    try discriminate; vm_compute; reflexivity.
Defined.

Lemma signup_then_login_witness :
  signup (Some "Zed@Example.com") (Some "password1") (Some "Zed") "password1" empty_db ann_pw =
    ((201, AUser zed),
     (fst (snd (signup (Some "Zed@Example.com") (Some "password1") (Some "Zed") "password1" empty_db ann_pw)),
      snd (snd (signup (Some "Zed@Example.com") (Some "password1") (Some "Zed") "password1" empty_db ann_pw)))) /\
  u_email zed = toLowerCase "Zed@Example.com" /\ u_plan zed = free /\
  login String.eqb (Some "zed@EXAMPLE.com") (Some "password1")
    (fst (snd (signup (Some "Zed@Example.com") (Some "password1") (Some "Zed") "password1" empty_db ann_pw)))
    (snd (snd (signup (Some "Zed@Example.com") (Some "password1") (Some "Zed") "password1" empty_db ann_pw)))
  = (200, AUser zed).
Proof.
  assert (H : signup (Some "Zed@Example.com") (Some "password1") (Some "Zed") "password1" empty_db ann_pw =
    ((201, AUser zed),
     (fst (snd (signup (Some "Zed@Example.com") (Some "password1") (Some "Zed") "password1" empty_db ann_pw)),
      snd (snd (signup (Some "Zed@Example.com") (Some "password1") (Some "Zed") "password1" empty_db ann_pw)))))
    by (vm_compute; reflexivity).
  split; [exact H|].
  refine (signup_then_login String.eqb "Zed@Example.com" "zed@EXAMPLE.com" "password1" _ _ _ _ _ _ _ _ H _ _ _).
  - intros v [<-|[]]. simpl. lia.
  - reflexivity.
  - discriminate.
  - vm_compute. reflexivity.
Defined.

Lemma signup_keeps_emails_unique_witness :
  NoDup (map u_email (users empty_db)) /\
  NoDup (map u_email (users (fst (snd (signup (Some "Zed@Example.com") (Some "password1") None
                                              "h" empty_db ann_pw))))).
Proof.
  assert (H : NoDup (map u_email (users empty_db))) by (simpl; apply NoDup_singleton).
  split; [exact H|]. exact (signup_keeps_emails_unique _ _ _ _ _ _ H).
Defined.

Lemma forgot_then_reset_then_login_witness :
  forgot_password (Some "Ann@Example.com") "rt9" feb10 false true empty_db =
    ((200, BSuccess), snd (forgot_password (Some "Ann@Example.com") "rt9" feb10 false true empty_db)) /\
  exists d2,
    reset_password (Some "rt9") (Some "newpass123") (feb10 + 3600000) "newpass123"
      (snd (forgot_password (Some "Ann@Example.com") "rt9" feb10 false true empty_db)) ann_pw =
      ((200, ASuccess), (d2, <[1 := "newpass123"]> ann_pw)) /\
    login String.eqb (Some "Ann@Example.com") (Some "newpass123") d2 (<[1 := "newpass123"]> ann_pw) =
      (200, AUser (user1 free)).
Proof.
  assert (H : forgot_password (Some "Ann@Example.com") "rt9" feb10 false true empty_db =
    ((200, BSuccess), snd (forgot_password (Some "Ann@Example.com") "rt9" feb10 false true empty_db)))
    by (vm_compute; reflexivity).
  split; [exact H|].
  refine (forgot_then_reset_then_login String.eqb "Ann@Example.com" "rt9" "newpass123" "newpass123"
            feb10 (feb10 + 3600000) false true (user1 free) empty_db _ ann_pw _ H _ _ _ _ _).
  - vm_compute. reflexivity.
  - discriminate.
  - discriminate.
  - simpl. lia.
  - lia.
  - reflexivity.
Defined.

(** Forgot-password never makes a reset token that was redeemable at
    that time unredeemable, whatever it answers. *)
Theorem forgot_password_keeps_redeemable (email : option string) (tok t : string) (now : Z)
    (rc ok : bool) (r : token_row) (d : db) :
  findByToken (password_reset_tokens d) t now = Some r ->
  findByToken (password_reset_tokens (snd (forgot_password email tok now rc ok d))) t now = Some r.
Proof.
  intros Hr. unfold forgot_password.
  destruct email as [[|a e]|]; [exact Hr| |exact Hr].
  destruct (findByEmail _ d) as [u|]; [|exact Hr].
  unfold reset_tokens_create. destruct (existsb _ _); [exact Hr|].
  assert (Hk : findByToken (password_reset_tokens
                  (set_reset_tokens
                     (deleteExpiredTokens (password_reset_tokens d) now ++
                      [{| t_id := next_id d; t_user_id := u_id u; t_token := tok;
                          t_expires_at := now + 60 * 60 * 1000; t_used := 0 |}])
                     (next_id d + 1) d)) t now = Some r).
  { unfold set_reset_tokens. cbn [password_reset_tokens].
    apply (findByToken_after_cleanup _ _ now) in Hr.
    unfold findByToken in *. rewrite find_app.
    destruct (find _ (deleteExpiredTokens _ now)); [exact Hr|discriminate]. }
  destruct (rc && negb ok); exact Hk.
Qed.

Lemma forgot_password_keeps_redeemable_witness :
  findByToken (password_reset_tokens db_reset) "rt1" feb10 =
    Some (reset_row "rt1" (feb10 + 3600000) 0) /\
  findByToken (password_reset_tokens
                 (snd (forgot_password (Some "ann@example.com") "rt2" feb10 true false db_reset)))
    "rt1" feb10 = Some (reset_row "rt1" (feb10 + 3600000) 0).
Proof.
  assert (H : findByToken (password_reset_tokens db_reset) "rt1" feb10 =
              Some (reset_row "rt1" (feb10 + 3600000) 0)) by (vm_compute; reflexivity).
  split; [exact H|]. exact (forgot_password_keeps_redeemable _ _ _ _ _ _ _ _ H).
Defined.
